(** * node-operation-validator: the admission webhook for node operations

    A shallow embedding of [internal/webhook/webhook.go] (the revision with
    the allowed-reasons ConfigMap, the reason pattern and the event
    recorder) and the properties of its decision logic.

    Layout:
    - models of the Go library functions the webhook calls
      ([strings], [strconv], [fmt], [regexp], [admission]);
    - the webhook itself ([Handle], [userOnlyOperation], ...), function by
      function, in the order of the source;
    - the properties. *)

From Stdlib Require Import String Ascii List ZArith Lia Bool.
From stdpp Require Import base gmap strings.

Import ListNotations.
Local Open Scope string_scope.
Local Open Scope list_scope.

(** Go errors are carried by their [Error()] text. *)
Abbreviation error := string (only parsing).

Inductive result (A : Type) : Type :=
| Ok (a : A)
| Err (e : error).
Arguments Ok {A} a.
Arguments Err {A} e.

(** ** Go's [strings] package (the three functions the webhook uses) *)
Module GoStrings.

(** [strings.HasPrefix(s, prefix)]. *)
Definition HasPrefix (s prefix : string) : bool := String.prefix prefix s.

(** [strings.Split(s, sep)] for a separator that is not empty: the pieces
    of [s] between the occurrences of [sep], scanned from the left.  The
    result is never the empty list; [Split "" sep] is the one-element list
    holding the empty string.  [skip] counts the bytes of an occurrence of
    the separator still to be passed over. *)
Fixpoint split_from (sep s : string) (skip : nat) : list string :=
  match s with
  | EmptyString => [EmptyString]
  | String c s' =>
      match skip with
      | S k => split_from sep s' k
      | O =>
          if String.prefix sep s
          then EmptyString :: split_from sep s' (String.length sep - 1)
          else match split_from sep s' 0 with
               | piece :: pieces => String c piece :: pieces
               | [] => [String c EmptyString]
               end
      end
  end.

(** With the empty separator Go explodes the string into its characters
    (bytes here); the webhook never does that. *)
Fixpoint explode (s : string) : list string :=
  match s with
  | EmptyString => []
  | String c s' => String c EmptyString :: explode s'
  end.

Definition Split (s sep : string) : list string :=
  match sep with
  | EmptyString => explode s
  | _ => split_from sep s 0
  end.

(** [strings.Join(elems, sep)]. *)
Fixpoint Join (elems : list string) (sep : string) : string :=
  match elems with
  | [] => EmptyString
  | [e] => e
  | e :: rest => e ++ sep ++ Join rest sep
  end.

(** ASCII lower-casing of one byte; bytes outside [A-Z] are unchanged. *)
Definition lower (c : ascii) : ascii :=
  let n := nat_of_ascii c in
  if (65 <=? n)%nat && (n <=? 90)%nat then ascii_of_nat (n + 32) else c.

(** [strings.EqualFold(s, t)]: equality under case folding.  The model is
    Go's ASCII path, which is all of [EqualFold] when both texts are ASCII.
    Bytes of 0x80 and above are compared as they are here, where Go folds
    the Unicode characters they encode: statements that depend on the
    folding are made for ASCII texts only. *)
Fixpoint EqualFold (s t : string) : bool :=
  match s, t with
  | EmptyString, EmptyString => true
  | String a s', String b t' => Ascii.eqb (lower a) (lower b) && EqualFold s' t'
  | _, _ => false
  end.

End GoStrings.

(** ** [strconv.Quote], which [fmt]'s verb [%q] applies to a string *)
Module GoStrconv.

Definition dquote : ascii := "034"%char.
Definition backslash : ascii := "092"%char.

Definition hexdigit (n : nat) : ascii :=
  match String.get n "0123456789abcdef" with
  | Some c => c
  | None => "0"%char
  end.

(** One byte inside a quoted string: the quote and the backslash are
    escaped, control bytes are written with Go's escapes, anything else
    stands for itself.  This is [strconv.Quote] on ASCII text; for bytes of
    0x80 and above Go decides by the character they encode (and escapes
    what is not printable or not UTF-8), which is not modelled: no
    statement below depends on how a text is quoted. *)
Definition quoteByte (c : ascii) : string :=
  let n := nat_of_ascii c in
  if Ascii.eqb c dquote then String backslash (String dquote EmptyString)
  else if Ascii.eqb c backslash then String backslash (String backslash EmptyString)
  else if (n =? 7)%nat then "\a"
  else if (n =? 8)%nat then "\b"
  else if (n =? 12)%nat then "\f"
  else if (n =? 10)%nat then "\n"
  else if (n =? 13)%nat then "\r"
  else if (n =? 9)%nat then "\t"
  else if (n =? 11)%nat then "\v"
  else if (n <? 32)%nat || (n =? 127)%nat
       then "\x" ++ String (hexdigit (n / 16)) (String (hexdigit (n mod 16)) EmptyString)
  else String c EmptyString.

Fixpoint quoteBody (s : string) : string :=
  match s with
  | EmptyString => EmptyString
  | String c s' => quoteByte c ++ quoteBody s'
  end.

Definition Quote (s : string) : string :=
  String dquote (quoteBody s ++ String dquote EmptyString).

End GoStrconv.

(** ** [fmt]: the verbs of the webhook's format strings *)
Module GoFmt.

(** [%q] of a string. *)
Definition q (s : string) : string := GoStrconv.Quote s.

(** [%v] of a [[]string]: the elements between brackets, separated by
    one space. *)
Definition v (l : list string) : string := "[" ++ GoStrings.Join l " " ++ "]".

End GoFmt.

(** ** Go's [regexp] package, for a fragment of its syntax

  [regexp.MatchString(pattern, s)] compiles [pattern] and reports whether
  [s] contains any match of it.  The model follows the parser of
  [regexp/syntax] (one pass over the pattern, a stack of open groups) and
  gives the match relation by spans of the text.

  Fragment: literals, [.], [^], [$], [\A], [\z], groups [( )] and
  [(?: )], alternation, [*], [+], [?] and their lazy forms, bracket
  classes of characters and ranges, escaped punctuation and the C escapes.
  Valid Go syntax outside it (counted repetition, flags and named groups,
  Perl, POSIX and Unicode classes, word boundaries, octal and hexadecimal
  escapes, [\Q], bytes of 0x80 and above) is reported as [Unsupported];
  Go's limits on size and nesting are not modelled.  Text is matched byte
  by byte, which is Go's behaviour on ASCII text.

  What the model stands for: a pattern that compiles here compiles in Go
  to the same expression; a pattern that fails here with one of Go's own
  error codes fails in Go.  On a pattern reported as [Unsupported] the
  model says nothing about Go (its [false] is a placeholder), so the
  statements about patterns are made for patterns that compile here or
  fail with a code other than [Unsupported]. *)
Module GoRegexp.

(** [syntax.Regexp]. *)
Inductive Regexp : Type :=
| OpEmptyMatch
| OpLiteral (c : ascii)
| OpCharClass (negated : bool) (ranges : list (ascii * ascii))
| OpAnyCharNotNL
| OpBeginText
| OpEndText
| OpCapture (sub : Regexp)
| OpStar (sub : Regexp)
| OpPlus (sub : Regexp)
| OpQuest (sub : Regexp)
| OpConcat (r1 r2 : Regexp)
| OpAlternate (r1 r2 : Regexp).

(** [syntax.ErrorCode], and [Unsupported] for what the model leaves out. *)
Inductive ErrorCode : Type :=
| ErrInvalidCharRange
| ErrInvalidEscape
| ErrInvalidRepeatOp
| ErrMissingBracket
| ErrMissingParen
| ErrMissingRepeatArgument
| ErrTrailingBackslash
| ErrUnexpectedParen
| Unsupported.

(** *** The parser *)

(** An open group: the alternatives already closed by a [|] and the
    pieces of the alternative being read, both latest first. *)
Record Frame : Type := mkFrame {
  capture : bool;
  alts : list Regexp;
  pieces : list Regexp
}.

Inductive ClassSub : Type :=
| CItem (first : bool)
| CLoEsc
| CHaveLo (lo : ascii)
| CRangeHi (lo : ascii)
| CHiEsc (lo : ascii).

Inductive Mode : Type :=
| MNormal
| MEscape
| MLazy
| MGroupQ
| MGroupColon
| MClassNeg
| MClass (negated : bool) (ranges : list (ascii * ascii)) (sub : ClassSub).

Record PState : Type := mkPState {
  stack : list Frame;
  cur : Frame;
  lastRepeat : bool;
  mode : Mode
}.

Definition emptyFrame (cap : bool) : Frame := mkFrame cap [] [].

Definition initial : PState := mkPState [] (emptyFrame false) false MNormal.

(** [p.concat]: the pieces read so far as one expression. *)
Definition concat (ps : list Regexp) : Regexp :=
  match ps with
  | [] => OpEmptyMatch
  | r :: rest => fold_left (fun acc x => OpConcat x acc) rest r
  end.

(** [p.alternate]: the alternatives of a group as one expression. *)
Definition alternate (f : Frame) : Regexp :=
  fold_left (fun acc x => OpAlternate x acc) (alts f) (concat (pieces f)).

(** [p.push] / [p.op] / [p.literal]. *)
Definition push (r : Regexp) (st : PState) : PState :=
  mkPState (stack st)
           (mkFrame (capture (cur st)) (alts (cur st)) (r :: pieces (cur st)))
           false MNormal.

Definition setMode (m : Mode) (st : PState) : PState :=
  mkPState (stack st) (cur st) (lastRepeat st) m.

Definition openGroup (cap : bool) (st : PState) : PState :=
  mkPState (cur st :: stack st) (emptyFrame cap) false MNormal.

(** [p.parseVerticalBar]. *)
Definition verticalBar (st : PState) : PState :=
  mkPState (stack st)
           (mkFrame (capture (cur st)) (concat (pieces (cur st)) :: alts (cur st)) [])
           false MNormal.

(** [p.parseRightParen]. *)
Definition rightParen (st : PState) : ErrorCode + PState :=
  match stack st with
  | [] => inl ErrUnexpectedParen
  | f :: rest =>
      let r := alternate (cur st) in
      let r' := if capture (cur st) then OpCapture r else r in
      inr (mkPState rest (mkFrame (capture f) (alts f) (r' :: pieces f)) false MNormal)
  end.

(** [p.repeat] for [*], [+] and [?]; [lazy] tells that a [?] follows. *)
Definition repeat (op : Regexp -> Regexp) (lazy : bool) (st : PState) : ErrorCode + PState :=
  if lastRepeat st then inl ErrInvalidRepeatOp
  else match pieces (cur st) with
       | [] => inl ErrMissingRepeatArgument
       | r :: rest =>
           inr (mkPState (stack st)
                         (mkFrame (capture (cur st)) (alts (cur st)) (op r :: rest))
                         true (if lazy then MLazy else MNormal))
       end.

Definition isASCII (c : ascii) : bool := (nat_of_ascii c <? 128)%nat.

Definition isalnum (c : ascii) : bool :=
  let n := nat_of_ascii c in
  ((48 <=? n) && (n <=? 57) || (65 <=? n) && (n <=? 90) || (97 <=? n) && (n <=? 122))%nat.

Definition isChar (c : ascii) (o : option ascii) : bool :=
  match o with Some d => Ascii.eqb c d | None => false end.

Definition oneOf (c : ascii) (set : string) : bool :=
  existsb (Ascii.eqb c) (list_ascii_of_string set).

(** [p.escape], the character after a backslash names. *)
Definition escape (c : ascii) : ErrorCode + ascii :=
  if negb (isASCII c) then inl Unsupported
  else if negb (isalnum c) then inr c
  else if Ascii.eqb c "a" then inr (ascii_of_nat 7)
  else if Ascii.eqb c "f" then inr (ascii_of_nat 12)
  else if Ascii.eqb c "n" then inr (ascii_of_nat 10)
  else if Ascii.eqb c "r" then inr (ascii_of_nat 13)
  else if Ascii.eqb c "t" then inr (ascii_of_nat 9)
  else if Ascii.eqb c "v" then inr (ascii_of_nat 11)
  else if oneOf c "01234567xpPdswDSW" then inl Unsupported
  else inl ErrInvalidEscape.

(** A backslash outside a class: the assertions [\A] and [\z] first. *)
Definition stepEscape (st : PState) (c : ascii) : ErrorCode + PState :=
  if Ascii.eqb c "A" then inr (push OpBeginText st)
  else if Ascii.eqb c "z" then inr (push OpEndText st)
  else if oneOf c "bBQ" then inl Unsupported
  else match escape c with
       | inl e => inl e
       | inr lit => inr (push (OpLiteral lit) st)
       end.

(** [p.parseClass], one character at a time. *)
Definition classItem (st : PState) (negated : bool) (ranges : list (ascii * ascii))
    (first : bool) (c : ascii) (next : option ascii) : ErrorCode + PState :=
  if Ascii.eqb c "]" && negb first then inr (push (OpCharClass negated (rev ranges)) st)
  else if Ascii.eqb c "[" && isChar ":" next then inl Unsupported
  else if Ascii.eqb c "\" then inr (setMode (MClass negated ranges CLoEsc) st)
  else if negb (isASCII c) then inl Unsupported
  else inr (setMode (MClass negated ranges (CHaveLo c)) st).

Definition closeRange (st : PState) (negated : bool) (ranges : list (ascii * ascii))
    (lo hi : ascii) : ErrorCode + PState :=
  if (nat_of_ascii hi <? nat_of_ascii lo)%nat then inl ErrInvalidCharRange
  else inr (setMode (MClass negated ((lo, hi) :: ranges) (CItem false)) st).

Definition stepClass (st : PState) (negated : bool) (ranges : list (ascii * ascii))
    (sub : ClassSub) (c : ascii) (next : option ascii) : ErrorCode + PState :=
  match sub with
  | CItem first => classItem st negated ranges first c next
  | CLoEsc =>
      match escape c with
      | inl e => inl e
      | inr lo => inr (setMode (MClass negated ranges (CHaveLo lo)) st)
      end
  | CHaveLo lo =>
      if Ascii.eqb c "-" && match next with Some d => negb (Ascii.eqb d "]") | None => false end
      then inr (setMode (MClass negated ranges (CRangeHi lo)) st)
      else classItem st negated ((lo, lo) :: ranges) false c next
  | CRangeHi lo =>
      if Ascii.eqb c "\" then inr (setMode (MClass negated ranges (CHiEsc lo)) st)
      else if negb (isASCII c) then inl Unsupported
      else closeRange st negated ranges lo c
  | CHiEsc lo =>
      match escape c with
      | inl e => inl e
      | inr hi => closeRange st negated ranges lo hi
      end
  end.

(** The big switch of [parse] on the next character of the pattern. *)
Definition stepNormal (st : PState) (c : ascii) (next : option ascii) : ErrorCode + PState :=
  if Ascii.eqb c "(" then
    if isChar "?" next then inr (setMode MGroupQ st) else inr (openGroup true st)
  else if Ascii.eqb c "|" then inr (verticalBar st)
  else if Ascii.eqb c ")" then rightParen st
  else if Ascii.eqb c "^" then inr (push OpBeginText st)
  else if Ascii.eqb c "$" then inr (push OpEndText st)
  else if Ascii.eqb c "." then inr (push OpAnyCharNotNL st)
  else if Ascii.eqb c "[" then
    if isChar "^" next then inr (setMode MClassNeg st)
    else inr (setMode (MClass false [] (CItem true)) st)
  else if Ascii.eqb c "*" then repeat OpStar (isChar "?" next) st
  else if Ascii.eqb c "+" then repeat OpPlus (isChar "?" next) st
  else if Ascii.eqb c "?" then repeat OpQuest (isChar "?" next) st
  else if Ascii.eqb c "{" then inl Unsupported
  else if Ascii.eqb c "\" then inr (setMode MEscape st)
  else if isASCII c then inr (push (OpLiteral c) st)
  else inl Unsupported.

Definition step (st : PState) (c : ascii) (next : option ascii) : ErrorCode + PState :=
  match mode st with
  | MNormal => stepNormal st c next
  | MEscape => stepEscape st c
  | MLazy => inr (setMode MNormal st)
  | MGroupQ => if isChar ":" next then inr (setMode MGroupColon st) else inl Unsupported
  | MGroupColon => inr (openGroup false st)
  | MClassNeg => inr (setMode (MClass true [] (CItem true)) st)
  | MClass negated ranges sub => stepClass st negated ranges sub c next
  end.

(** The end of the pattern. *)
Definition finish (st : PState) : ErrorCode + Regexp :=
  match mode st with
  | MNormal | MLazy =>
      match stack st with
      | [] => inr (alternate (cur st))
      | _ :: _ => inl ErrMissingParen
      end
  | MEscape => inl ErrTrailingBackslash
  | MClass _ _ CLoEsc | MClass _ _ (CHiEsc _) => inl ErrTrailingBackslash
  | MClass _ _ _ | MClassNeg => inl ErrMissingBracket
  | MGroupQ | MGroupColon => inl Unsupported
  end.

Definition peek (t : string) : option ascii :=
  match t with
  | String c _ => Some c
  | EmptyString => None
  end.

Fixpoint run (st : PState) (t : string) : ErrorCode + Regexp :=
  match t with
  | EmptyString => finish st
  | String c t' =>
      match step st c (peek t') with
      | inl e => inl e
      | inr st' => run st' t'
      end
  end.

(** [regexp.Compile]. *)
Definition Compile (expr : string) : ErrorCode + Regexp := run initial expr.

(** *** Matching

    [matchAt re text i j]: [re] matches the bytes [i] (included) to [j]
    (excluded) of [text].  The assertions look at where the span lies in
    the whole text. *)

Definition inClass (negated : bool) (ranges : list (ascii * ascii)) (c : ascii) : bool :=
  xorb negated
       (existsb (fun r => (nat_of_ascii (fst r) <=? nat_of_ascii c)%nat
                          && (nat_of_ascii c <=? nat_of_ascii (snd r))%nat) ranges).

Definition newline : ascii := "010"%char.

Definition charAt (p : ascii -> bool) (text : list ascii) (i j : nat) : bool :=
  (j =? S i)%nat && match nth_error text i with
                    | Some c => p c
                    | None => false
                    end.

(** Zero or more spans matched by [f], laid end to end from [i] to [j];
    every span but the first step is not empty, so [j - i] rounds are
    enough. *)
Fixpoint star (f : nat -> nat -> bool) (fuel i j : nat) : bool :=
  (i =? j)%nat
  || match fuel with
     | O => false
     | S fuel' => existsb (fun k => f i k && star f fuel' k j) (seq (S i) (j - i))
     end.

Fixpoint matchAt (re : Regexp) (text : list ascii) (i j : nat) {struct re} : bool :=
  match re with
  | OpEmptyMatch => (i =? j)%nat
  | OpLiteral c => charAt (Ascii.eqb c) text i j
  | OpCharClass negated ranges => charAt (inClass negated ranges) text i j
  | OpAnyCharNotNL => charAt (fun c => negb (Ascii.eqb c newline)) text i j
  | OpBeginText => (i =? j)%nat && (i =? 0)%nat
  | OpEndText => (i =? j)%nat && (i =? List.length text)%nat
  | OpCapture sub => matchAt sub text i j
  | OpStar sub => star (matchAt sub text) (j - i) i j
  | OpPlus sub =>
      existsb (fun k => matchAt sub text i k && star (matchAt sub text) (j - k) k j)
              (seq i (S j - i))
  | OpQuest sub => (i =? j)%nat || matchAt sub text i j
  | OpConcat r1 r2 =>
      existsb (fun k => matchAt r1 text i k && matchAt r2 text k j) (seq i (S j - i))
  | OpAlternate r1 r2 => matchAt r1 text i j || matchAt r2 text i j
  end.

(** The method [MatchString] of a compiled expression: some span of the
    text is matched. *)
Definition Regexp_MatchString (re : Regexp) (s : string) : bool :=
  let text := list_ascii_of_string s in
  let n := List.length text in
  existsb (fun i => existsb (fun j => matchAt re text i j) (seq i (S n - i))) (seq 0 (S n)).

(** [regexp.MatchString]: as in Go's source, the pattern is compiled and a
    compile error is returned with [false]. *)
Definition MatchString (pattern s : string) : bool * option ErrorCode :=
  match Compile pattern with
  | inl err => (false, Some err)
  | inr re => (Regexp_MatchString re s, None)
  end.

End GoRegexp.

(** ** The Kubernetes types the webhook reads and the responses it builds *)

(** [net/http] status codes. *)
Definition StatusOK : Z := 200.
Definition StatusBadRequest : Z := 400.
Definition StatusForbidden : Z := 403.
Definition StatusInternalServerError : Z := 500.

(** [admission.Response]: the fields [Allowed], [Result.Code] and
    [Result.Message] of the embedded [AdmissionResponse]. *)
Record Response : Type := mkResponse {
  Allowed : bool;
  Code : Z;
  Message : string
}.

Module admission.

(** [admission.ValidationResponse]. *)
Definition ValidationResponse (allowed : bool) (message : string) : Response :=
  mkResponse allowed (if allowed then StatusOK else StatusForbidden) message.

Definition Allowed (message : string) : Response := ValidationResponse true message.

Definition Denied (message : string) : Response := ValidationResponse false message.

(** [admission.Errored(code, err)]. *)
Definition Errored (code : Z) (err : error) : Response := mkResponse false code err.

End admission.

(** [corev1.Node]: the annotations and [Spec.Unschedulable]. *)
Record Node : Type := mkNode {
  Annotations : gmap string string;
  Unschedulable : bool
}.

(** The zero value [corev1.Node{}]. *)
Definition emptyNode : Node := mkNode ∅ false.

(** [corev1.ConfigMap]: its [Data]. *)
Record ConfigMap : Type := mkConfigMap {
  Data : gmap string string
}.

(** What [recorder.Event(object, eventtype, reason, message)] records. *)
Record Event : Type := mkEvent {
  eventObject : Node;
  eventType : string;
  eventReasonText : string;
  eventMessage : string
}.

Definition EventTypeNormal : string := "Normal".

(** [admissionv1.Operation]: the verbs of an admission request. *)
Definition admissionv1_Create : string := "CREATE".
Definition admissionv1_Update : string := "UPDATE".
Definition admissionv1_Delete : string := "DELETE".

(** [client.ObjectKey]. *)
Record ObjectKey : Type := mkObjectKey {
  Namespace : string;
  KeyName : string
}.

(** The process environment; [os.Getenv] gives the empty string for a
    variable that is not set. *)
Definition Getenv (environ : gmap string string) (key : string) : string :=
  default EmptyString (environ !! key).

(** A Go map read with the two-value form [v, ok := m[key]]. *)
Definition lookup2 (m : gmap string string) (key : string) : string * bool :=
  match m !! key with
  | Some v => (v, true)
  | None => (EmptyString, false)
  end.

(** ** The webhook *)

Section Webhook.

(** [runtime.RawExtension], the undecoded object of a request. *)
Variable RawExtension : Type.

(** [admission.Request]. *)
Record Request : Type := mkRequest {
  Name : string;
  Operation : string;
  Username : string;
  OldObject : RawExtension;
  Object : RawExtension
}.

(** [NodeValidator].  [Decoder] is the method [DecodeRaw(raw, into)], which
    gives the object after decoding or an error; [Client] is the method
    [Get(key, into)] for ConfigMaps.  The [Recorder] is modelled by the list
    of events a function returns, in the order of the calls; the [Logger]
    has no part in a response and is left out. *)
Record NodeValidator : Type := mkNodeValidator {
  Decoder : RawExtension -> Node -> result Node;
  Client : ObjectKey -> result ConfigMap
}.

End Webhook.

Arguments Name {RawExtension} _.
Arguments Operation {RawExtension} _.
Arguments Username {RawExtension} _.
Arguments OldObject {RawExtension} _.
Arguments Object {RawExtension} _.
Arguments Decoder {RawExtension} _.
Arguments Client {RawExtension} _.

(** [type Operation string] and the constants of the package. *)
Definition reasonAnnotation : string := "node.dana.io/reason".
Definition serviceAccountUser : string := "system:serviceaccount:".
Definition nodeUser : string := "system:node:".
Definition systemAdminUser : string := "system:admin".
Definition ForbiddenUsersEnv : string := "forbiddenUsers".
Definition Create : string := "create".
Definition Delete : string := "delete".
Definition Cordon : string := "cordon".
Definition Uncordon : string := "uncordon".
Definition cmName : string := "node-operation-validator-config".
Definition cmNamespace : string := "node-operation-validator-system".
Definition reasonRegexPatternKey : string := "reasonRegexPattern".
Definition allowedReasonsKey : string := "allowedReasons".
Definition eventReason : string := "NodeOperation".

(** [createNodeEvent]: the event for the node operation. *)
Definition createNodeEvent (node : Node) (message user operation : string) : list Event :=
  let reason := (eventReason ++ ": " ++ operation)%string in
  let fullMessage := (user ++ ": " ++ message)%string in
  [mkEvent node EventTypeNormal reason fullMessage].

(** [isReasonFreetext]. *)
Definition isReasonFreetext (operation reason : string) : bool :=
  String.eqb operation Delete && negb (String.eqb reason EmptyString).

(** [reasonMatchesPattern]: the error of [regexp.MatchString] is dropped. *)
Definition reasonMatchesPattern (pattern reason : string) : bool :=
  let '(matched, _) := GoRegexp.MatchString pattern reason in
  matched.

(** [reasonIsAllowed]. *)
Fixpoint reasonIsAllowed (allowedReasons : list string) (reason : string) : bool :=
  match allowedReasons with
  | [] => false
  | allowedReason :: rest =>
      if GoStrings.EqualFold allowedReason reason then true
      else reasonIsAllowed rest reason
  end.

(** [getAllowedReasonsAndPattern]. *)
Definition getAllowedReasonsAndPattern {RawExtension : Type} (n : NodeValidator RawExtension)
    (namespace : string) : result (list string * string) :=
  match Client n (mkObjectKey namespace cmName) with
  | Err err =>
      Err ("failed to fetch ConfigMap " ++ namespace ++ "/" ++ cmName ++ ": " ++ err)
  | Ok webhookConfig =>
      let '(allowedReasons, _) := lookup2 (Data webhookConfig) allowedReasonsKey in
      let '(regexPattern, _) := lookup2 (Data webhookConfig) reasonRegexPatternKey in
      let reasons := GoStrings.Split allowedReasons "," in
      Ok (reasons, regexPattern)
  end.

(** [isForbiddenUser]. *)
Fixpoint isForbiddenUser (userToCheck : string) (forbiddenUsers : list string) : bool :=
  match forbiddenUsers with
  | [] => false
  | user :: rest =>
      if String.eqb user userToCheck then true
      else isForbiddenUser userToCheck rest
  end.

(** [isNode]. *)
Definition isNode (user : string) : bool := GoStrings.HasPrefix user nodeUser.

(** [isServiceAccount]. *)
Definition isServiceAccount (user : string) : bool :=
  GoStrings.HasPrefix user serviceAccountUser.

(** [validateNoReason]. *)
Definition validateNoReason (doesReasonExist : bool) (operation user : string) : Response :=
  if doesReasonExist
  then admission.Denied ("Don't forget to remove the " ++ GoFmt.q reasonAnnotation
                         ++ " annotation from the node")
  else admission.Allowed "Operation approved".

(** [userOnlyOperation]: the response and the events recorded. *)
Definition userOnlyOperation (node : Node) (operation user : string)
    (forbiddenUsers : list string) (reason : string)
    (isReasonRequired doesReasonExist : bool)
    (allowedReasons : list string) (reasonPattern : string) : Response * list Event :=
  if isForbiddenUser user forbiddenUsers then
    (admission.Denied (GoFmt.q user ++ " user is not allowed to " ++ operation
                       ++ " a node. Please log in with a LDAP privileged user. You must also add "
                       ++ GoFmt.q reasonAnnotation ++ " annotation"),
     [])
  else if isServiceAccount user then
    (admission.Allowed ("Service account " ++ GoFmt.q user ++ " is allowed to do everything"),
     createNodeEvent node reason user operation)
  else if isNode user then
    (admission.Allowed ("Node " ++ GoFmt.q user ++ " is allowed to do everything"),
     createNodeEvent node reason user operation)
  else if isReasonRequired then
    if doesReasonExist then
      if reasonIsAllowed allowedReasons reason
         || reasonMatchesPattern reasonPattern reason
         || isReasonFreetext operation reason
      then (admission.Allowed (operation ++ " operation has been approved"),
            createNodeEvent node reason user operation)
      else (admission.Denied ("Invalid reason " ++ GoFmt.q reason ++ ". Allowed reasons: "
                              ++ GoFmt.v allowedReasons),
            [])
    else (admission.Denied ("You must add " ++ GoFmt.q reasonAnnotation ++ " annotation"), [])
  else
    let response := validateNoReason doesReasonExist operation user in
    if Allowed response
    then (response, createNodeEvent node EmptyString user operation)
    else (response, []).

(** [Handle]. *)
Definition Handle {RawExtension : Type} (n : NodeValidator RawExtension)
    (environ : gmap string string) (req : Request RawExtension) : Response * list Event :=
  let node := emptyNode in
  let oldNode := emptyNode in
  let user := Username req in
  let forbiddenUsers := GoStrings.Split (Getenv environ ForbiddenUsersEnv) "," in
  let forbiddenUsers := forbiddenUsers ++ [systemAdminUser] in
  match getAllowedReasonsAndPattern n cmNamespace with
  | Err err =>
      (admission.Errored StatusInternalServerError ("failed to fetch allowed reasons: " ++ err), [])
  | Ok (allowedReasons, reasonRegex) =>
      if String.eqb (Operation req) admissionv1_Delete then
        match Decoder n (OldObject req) node with
        | Err _ =>
            (admission.Errored StatusBadRequest ("failed to decode node " ++ GoFmt.q (Name req)), [])
        | Ok node =>
            let '(reason, doesReasonExist) := lookup2 (Annotations node) reasonAnnotation in
            userOnlyOperation oldNode Delete user forbiddenUsers reason true doesReasonExist
                              allowedReasons reasonRegex
        end
      else if String.eqb (Operation req) admissionv1_Create then
        match Decoder n (Object req) node with
        | Err _ =>
            (admission.Errored StatusBadRequest ("failed to decode node " ++ GoFmt.q (Name req)), [])
        | Ok node =>
            let '(_, doesReasonExist) := lookup2 (Annotations node) reasonAnnotation in
            let response := validateNoReason doesReasonExist Create user in
            if Allowed response
            then (response, createNodeEvent oldNode EmptyString user (Operation req))
            else (response, [])
        end
      else
        (* The default case handles the update requests. *)
        match Decoder n (OldObject req) node with
        | Err _ =>
            (admission.Errored StatusBadRequest ("failed to decode node " ++ GoFmt.q (Name req)), [])
        | Ok node =>
            match Decoder n (Object req) node with
            | Err _ =>
                (admission.Errored StatusBadRequest ("failed to decode node " ++ GoFmt.q (Name req)),
                 [])
            | Ok node =>
                let '(reasonMessage, doesReasonExist) :=
                  lookup2 (Annotations node) reasonAnnotation in
                if negb (Unschedulable oldNode) && Unschedulable node then
                  userOnlyOperation oldNode Cordon user forbiddenUsers reasonMessage true
                                    doesReasonExist allowedReasons reasonRegex
                else if Unschedulable oldNode && negb (Unschedulable node) then
                  userOnlyOperation oldNode Uncordon user forbiddenUsers reasonMessage false
                                    doesReasonExist allowedReasons reasonRegex
                else (admission.Allowed "Node was updated", [])
            end
        end
  end.

(** ** Test doubles, after [webhook_test.go] *)

Definition regularUserExample : string := "user".

Definition machineConfigDaemon : string :=
  serviceAccountUser ++ "openshift-machine-config-operator:machine-config-daemon".

Definition kubelet : string := nodeUser ++ "worker-0".

(** A decoder for requests that carry the JSON of a node, given here by
    the node that was marshalled.  As [DecodeRaw] does, it unmarshals into
    the target and leaves alone what the JSON does not mention: the
    annotations of the JSON are written over those of the target, and
    [unschedulable], which the JSON omits when it is false, is set only
    when it is true.  [None] is a raw extension with no content, which
    [DecodeRaw] refuses. *)
Definition decodeNode (raw : option Node) (into : Node) : result Node :=
  match raw with
  | Some n =>
      Ok (mkNode (Annotations n ∪ Annotations into) (Unschedulable n || Unschedulable into))
  | None => Err "there is no content to decode"
  end.

(** A client that holds the one ConfigMap [cm] under the webhook's key. *)
Definition fakeClient (cm : ConfigMap) (key : ObjectKey) : result ConfigMap :=
  if String.eqb (Namespace key) cmNamespace && String.eqb (KeyName key) cmName
  then Ok cm
  else Err "configmap not found".

(** A client that holds nothing. *)
Definition emptyClient (key : ObjectKey) : result ConfigMap := Err "configmap not found".

Definition mockConfigMap : ConfigMap :=
  mkConfigMap
    {[ allowedReasonsKey :=
         "Testing,Unauthorized access,Invalid configuration,Dependency error" ]}.

Definition emptyConfigMap : ConfigMap := mkConfigMap ∅.

Definition patternConfigMap (pattern : string) : ConfigMap :=
  mkConfigMap {[ allowedReasonsKey := "Testing"; reasonRegexPatternKey := pattern ]}.

Definition validator (cm : ConfigMap) : NodeValidator (option Node) :=
  mkNodeValidator (option Node) decodeNode (fakeClient cm).

(** A node with or without the reason annotation. *)
Definition testNode (reason : option string) (unschedulable : bool) : Node :=
  mkNode (match reason with
          | Some r => {[ reasonAnnotation := r ]}
          | None => ∅
          end)
         unschedulable.

Definition createReq (user : string) (node : Node) : Request (option Node) :=
  mkRequest (option Node) "test" admissionv1_Create user None (Some node).

Definition deleteReq (user : string) (node : Node) : Request (option Node) :=
  mkRequest (option Node) "test" admissionv1_Delete user (Some node) None.

Definition updateReq (user : string) (old new : Node) : Request (option Node) :=
  mkRequest (option Node) "test" admissionv1_Update user (Some old) (Some new).

(** The environment of the test: [forbiddenUsers=system:admin]. *)
Definition testEnviron : gmap string string := {[ ForbiddenUsersEnv := systemAdminUser ]}.

(** The verdict of the test's validator on a request. *)
Definition testAllowed (req : Request (option Node)) : bool :=
  Allowed (fst (Handle (validator mockConfigMap) testEnviron req)).

(** ** Vocabulary of the statements *)

(** The value of [forbiddenUsers] in [Handle]: the comma-separated
    environment variable, then the built-in superuser. *)
Definition forbiddenUsersOf (environ : gmap string string) : list string :=
  GoStrings.Split (Getenv environ ForbiddenUsersEnv) "," ++ [systemAdminUser].

(** A user that none of the first three cases of [userOnlyOperation]
    takes. *)
Definition regularUser (user : string) (forbiddenUsers : list string) : bool :=
  negb (isForbiddenUser user forbiddenUsers)
  && negb (isServiceAccount user)
  && negb (isNode user).

(** A pattern character with no meaning of its own in a regular
    expression. *)
Definition plainChar (c : ascii) : bool :=
  GoRegexp.isASCII c && negb (GoRegexp.oneOf c "\.+*?()|[]{}^$").

Definition plain (pattern : string) : bool :=
  forallb plainChar (list_ascii_of_string pattern).

(** The parser's state after the literals [cs], latest first in
    [pieces]. *)
Definition pushAll (cs : list ascii) (st : GoRegexp.PState) : GoRegexp.PState :=
  fold_left (fun st c => GoRegexp.push (GoRegexp.OpLiteral c) st) cs st.

(** The expression a plain pattern compiles to: its characters in
    sequence. *)
Definition literals (cs : list ascii) : GoRegexp.Regexp :=
  GoRegexp.concat (rev (map GoRegexp.OpLiteral cs)).

(** [s] lies somewhere inside [t]. *)
Definition occursIn (s t : string) : Prop :=
  exists before after : string, t = (before ++ s ++ after)%string.

(** ** The earlier revision, [internal/webhook/webhook.go]

    The handler before the ConfigMap, the reason policy, the node users
    and the events.  [validateNoReason], [isServiceAccount] and
    [isForbiddenUser] read the same in both files and are shared; the
    validator's [Client] is not used. *)
Module WebhookV1.

(** [userOnlyOperation]. *)
Definition userOnlyOperation (operation user : string) (forbiddenUsers : list string)
    (reasonMessage : string) (isReasonRequired doesReasonExist : bool) : Response :=
  if isForbiddenUser user forbiddenUsers then
    if doesReasonExist
    then admission.Denied
           (GoFmt.q user ++ " user is not allowed to " ++ operation
            ++ " a node. Please log in with a LDAP privileged user")
    else admission.Denied
           (GoFmt.q user ++ " user is not allowed to " ++ operation
            ++ " a node. Please log in with a LDAP privileged user. You must also add "
            ++ GoFmt.q reasonAnnotation ++ " annotation")
  else if isServiceAccount user then
    admission.Allowed ("Service account " ++ GoFmt.q user ++ " is allowed to do everything")
  else if isReasonRequired then
    if doesReasonExist
    then admission.Allowed (operation ++ " operation has been approved")
    else admission.Denied ("You must add " ++ GoFmt.q reasonAnnotation ++ " annotation")
  else validateNoReason doesReasonExist operation user.

(** [Handle]. *)
Definition Handle {RawExtension : Type} (n : NodeValidator RawExtension)
    (environ : gmap string string) (req : Request RawExtension) : Response :=
  let node := emptyNode in
  let oldNode := emptyNode in
  let user := Username req in
  let forbiddenUsers := GoStrings.Split (Getenv environ ForbiddenUsersEnv) "," in
  let forbiddenUsers := forbiddenUsers ++ [systemAdminUser] in
  if String.eqb (Operation req) admissionv1_Delete then
    match Decoder n (OldObject req) node with
    | Err _ => admission.Errored StatusBadRequest ("failed to decode node " ++ GoFmt.q (Name req))
    | Ok node =>
        let '(reasonMessage, doesReasonExist) := lookup2 (Annotations node) reasonAnnotation in
        userOnlyOperation Delete user forbiddenUsers reasonMessage true doesReasonExist
    end
  else if String.eqb (Operation req) admissionv1_Create then
    match Decoder n (Object req) node with
    | Err _ => admission.Errored StatusBadRequest ("failed to decode node " ++ GoFmt.q (Name req))
    | Ok node =>
        let '(_, doesReasonExist) := lookup2 (Annotations node) reasonAnnotation in
        validateNoReason doesReasonExist Create user
    end
  else
    (* The default case handles the update requests. *)
    match Decoder n (OldObject req) node with
    | Err _ => admission.Errored StatusBadRequest ("failed to decode node " ++ GoFmt.q (Name req))
    | Ok node =>
        match Decoder n (Object req) node with
        | Err _ =>
            admission.Errored StatusBadRequest ("failed to decode node " ++ GoFmt.q (Name req))
        | Ok node =>
            let '(reasonMessage, doesReasonExist) :=
              lookup2 (Annotations node) reasonAnnotation in
            if negb (Unschedulable oldNode) && Unschedulable node then
              userOnlyOperation Cordon user forbiddenUsers reasonMessage true doesReasonExist
            else if Unschedulable oldNode && negb (Unschedulable node) then
              userOnlyOperation Uncordon user forbiddenUsers reasonMessage false doesReasonExist
            else admission.Allowed "Node was updated"
        end
    end.

End WebhookV1.

(** ** Vocabulary of the further properties *)

(** The node [Handle] decodes for a request: the old object of a delete,
    the object of a create, and for any other verb the object, decoded into
    what the old object gave. *)
Definition requestNode {RawExtension : Type} (n : NodeValidator RawExtension)
    (req : Request RawExtension) : result Node :=
  if String.eqb (Operation req) admissionv1_Delete then Decoder n (OldObject req) emptyNode
  else if String.eqb (Operation req) admissionv1_Create then Decoder n (Object req) emptyNode
  else match Decoder n (OldObject req) emptyNode with
       | Err err => Err err
       | Ok node1 => Decoder n (Object req) node1
       end.

(** The same request from another user. *)
Definition withUser {RawExtension : Type} (req : Request RawExtension) (user : string) :
    Request RawExtension :=
  mkRequest RawExtension (Name req) (Operation req) user (OldObject req) (Object req).

(** A text of ASCII characters only. *)
Definition asciiText (s : string) : bool :=
  forallb GoRegexp.isASCII (list_ascii_of_string s).

(** A text with its ASCII capitals lowered. *)
Fixpoint foldLower (s : string) : string :=
  match s with
  | EmptyString => EmptyString
  | String c s' => String (GoStrings.lower c) (foldLower s')
  end.

(** A pattern between the anchors of the text's start and end. *)
Definition anchored (pattern : string) : string := ("^" ++ pattern ++ "$")%string.

(** The literals [cs] and then the end of the text. *)
Definition literalsToEnd (cs : list ascii) : GoRegexp.Regexp :=
  GoRegexp.concat (rev (map GoRegexp.OpLiteral cs ++ [GoRegexp.OpEndText])).

(** * Properties *)

(** ** Strings and messages *)

Lemma append_not_empty_l (s t : string) :
  s <> EmptyString -> (s ++ t)%string <> EmptyString.
Proof. destruct s as [|c s]; [congruence | discriminate]. Qed.

Lemma append_not_empty_r (s t : string) :
  t <> EmptyString -> (s ++ t)%string <> EmptyString.
Proof. destruct s as [|c s]; [trivial | discriminate]. Qed.

Lemma q_not_empty (s : string) : GoFmt.q s <> EmptyString.
Proof. unfold GoFmt.q, GoStrconv.Quote. discriminate. Qed.

Lemma list_ascii_of_string_app (s t : string) :
  list_ascii_of_string (s ++ t) = list_ascii_of_string s ++ list_ascii_of_string t.
Proof. induction s as [|c s IH]; simpl; [reflexivity | now rewrite IH]. Qed.

Lemma string_of_list_ascii_app (l1 l2 : list ascii) :
  string_of_list_ascii (l1 ++ l2)
  = (string_of_list_ascii l1 ++ string_of_list_ascii l2)%string.
Proof. induction l1 as [|c l1 IH]; simpl; [reflexivity | now rewrite IH]. Qed.

(** ** The forbidden list *)

Lemma isForbiddenUser_app (user : string) (l1 l2 : list string) :
  isForbiddenUser user (l1 ++ l2) = isForbiddenUser user l1 || isForbiddenUser user l2.
Proof.
  induction l1 as [|u l1 IH]; simpl; [reflexivity |].
  destruct (String.eqb u user); [reflexivity | exact IH].
Qed.

Lemma isForbiddenUser_In (user : string) (l : list string) :
  isForbiddenUser user l = true <-> In user l.
Proof.
  induction l as [|u l IH]; simpl.
  - split; [discriminate | tauto].
  - destruct (String.eqb_spec u user) as [E | NE].
    + split; auto.
    + rewrite IH. split; [auto | intros [E | H]; [congruence | exact H]].
Qed.

(** The built-in superuser is forbidden whatever the environment holds. *)
Lemma systemAdminUser_forbidden (environ : gmap string string) :
  isForbiddenUser systemAdminUser (forbiddenUsersOf environ) = true.
Proof.
  unfold forbiddenUsersOf. rewrite isForbiddenUser_app.
  apply orb_true_iff. right. reflexivity.
Qed.

(** ** The cases of [userOnlyOperation] *)

Section UserOnlyOperation.

Variables (node : Node) (operation user : string) (forbiddenUsers : list string).
Variables (reason : string) (isReasonRequired doesReasonExist : bool).
Variables (allowedReasons : list string) (reasonPattern : string).

Local Abbreviation response :=
  (userOnlyOperation node operation user forbiddenUsers reason isReasonRequired
                     doesReasonExist allowedReasons reasonPattern).

Lemma userOnlyOperation_forbidden :
  isForbiddenUser user forbiddenUsers = true ->
  response =
    (admission.Denied
       (GoFmt.q user ++ " user is not allowed to " ++ operation
        ++ " a node. Please log in with a LDAP privileged user. You must also add "
        ++ GoFmt.q reasonAnnotation ++ " annotation"),
     []).
Proof. intros H. unfold userOnlyOperation. now rewrite H. Qed.

Lemma userOnlyOperation_serviceAccount :
  isForbiddenUser user forbiddenUsers = false ->
  isServiceAccount user = true ->
  response =
    (admission.Allowed ("Service account " ++ GoFmt.q user ++ " is allowed to do everything"),
     createNodeEvent node reason user operation).
Proof. intros H1 H2. unfold userOnlyOperation. now rewrite H1, H2. Qed.

Lemma userOnlyOperation_node :
  isForbiddenUser user forbiddenUsers = false ->
  isServiceAccount user = false ->
  isNode user = true ->
  response =
    (admission.Allowed ("Node " ++ GoFmt.q user ++ " is allowed to do everything"),
     createNodeEvent node reason user operation).
Proof. intros H1 H2 H3. unfold userOnlyOperation. now rewrite H1, H2, H3. Qed.

Lemma regularUser_cases :
  regularUser user forbiddenUsers = true ->
  isForbiddenUser user forbiddenUsers = false
  /\ isServiceAccount user = false /\ isNode user = false.
Proof.
  unfold regularUser. intros H.
  apply andb_true_iff in H as [H H3]. apply andb_true_iff in H as [H1 H2].
  repeat split; now apply negb_true_iff.
Qed.

(** A regular user whose operation requires a reason that is present. *)
Lemma userOnlyOperation_regular_reason :
  regularUser user forbiddenUsers = true ->
  isReasonRequired = true ->
  doesReasonExist = true ->
  response =
    if reasonIsAllowed allowedReasons reason
       || reasonMatchesPattern reasonPattern reason
       || isReasonFreetext operation reason
    then (admission.Allowed (operation ++ " operation has been approved"),
          createNodeEvent node reason user operation)
    else (admission.Denied ("Invalid reason " ++ GoFmt.q reason ++ ". Allowed reasons: "
                            ++ GoFmt.v allowedReasons),
          []).
Proof.
  intros H -> ->. apply regularUser_cases in H as (H1 & H2 & H3).
  unfold userOnlyOperation. now rewrite H1, H2, H3.
Qed.

(** Every outcome is a verdict built by [admission.Allowed] or
    [admission.Denied]. *)
Lemma userOnlyOperation_verdict :
  exists message,
    fst response = admission.Allowed message \/ fst response = admission.Denied message.
Proof.
  unfold userOnlyOperation, validateNoReason.
  destruct (isForbiddenUser user forbiddenUsers), (isServiceAccount user), (isNode user),
    isReasonRequired, doesReasonExist,
    (reasonIsAllowed allowedReasons reason || reasonMatchesPattern reasonPattern reason
     || isReasonFreetext operation reason); simpl; eexists; (left; reflexivity) || (right; reflexivity).
Qed.

(** One event with every allow, none with a denial. *)
Lemma userOnlyOperation_events :
  if Allowed (fst response)
  then exists message, snd response = createNodeEvent node message user operation
  else snd response = [].
Proof.
  unfold userOnlyOperation, validateNoReason.
  destruct (isForbiddenUser user forbiddenUsers), (isServiceAccount user), (isNode user),
    isReasonRequired, doesReasonExist,
    (reasonIsAllowed allowedReasons reason || reasonMatchesPattern reasonPattern reason
     || isReasonFreetext operation reason); simpl; try reflexivity; eexists; reflexivity.
Qed.

Lemma userOnlyOperation_message : Message (fst response) <> EmptyString.
Proof.
  unfold userOnlyOperation, validateNoReason.
  destruct (isForbiddenUser user forbiddenUsers), (isServiceAccount user), (isNode user),
    isReasonRequired, doesReasonExist,
    (reasonIsAllowed allowedReasons reason || reasonMatchesPattern reasonPattern reason
     || isReasonFreetext operation reason); simpl;
    first [ discriminate
          | apply append_not_empty_l, q_not_empty
          | apply append_not_empty_r; discriminate ].
Qed.

End UserOnlyOperation.

(** ** The cases of [Handle] *)

Section HandleCases.

Context {RawExtension : Type}.
Variables (n : NodeValidator RawExtension) (environ : gmap string string).
Variable req : Request RawExtension.

Lemma getAllowedReasonsAndPattern_error (namespace : string) (err : error) :
  Client n (mkObjectKey namespace cmName) = Err err ->
  getAllowedReasonsAndPattern n namespace
  = Err ("failed to fetch ConfigMap " ++ namespace ++ "/" ++ cmName ++ ": " ++ err).
Proof. intros H. unfold getAllowedReasonsAndPattern. now rewrite H. Qed.

Lemma getAllowedReasonsAndPattern_ok (namespace : string) (cm : ConfigMap) :
  Client n (mkObjectKey namespace cmName) = Ok cm ->
  getAllowedReasonsAndPattern n namespace
  = Ok (GoStrings.Split (fst (lookup2 (Data cm) allowedReasonsKey)) ",",
        fst (lookup2 (Data cm) reasonRegexPatternKey)).
Proof.
  intros H. unfold getAllowedReasonsAndPattern. rewrite H.
  destruct (lookup2 (Data cm) allowedReasonsKey), (lookup2 (Data cm) reasonRegexPatternKey).
  reflexivity.
Qed.

Lemma Handle_fetch_error (err : error) :
  getAllowedReasonsAndPattern n cmNamespace = Err err ->
  Handle n environ req
  = (admission.Errored StatusInternalServerError
       ("failed to fetch allowed reasons: " ++ err), []).
Proof. intros H. unfold Handle. now rewrite H. Qed.

Variables (allowedReasons : list string) (reasonRegex : string).
Hypothesis fetched :
  getAllowedReasonsAndPattern n cmNamespace = Ok (allowedReasons, reasonRegex).

Lemma Handle_Delete (node : Node) :
  Operation req = admissionv1_Delete ->
  Decoder n (OldObject req) emptyNode = Ok node ->
  Handle n environ req
  = userOnlyOperation emptyNode Delete (Username req) (forbiddenUsersOf environ)
      (fst (lookup2 (Annotations node) reasonAnnotation)) true
      (snd (lookup2 (Annotations node) reasonAnnotation)) allowedReasons reasonRegex.
Proof.
  intros Hop Hdec. unfold Handle. rewrite fetched, Hop, Hdec. simpl String.eqb. cbv iota.
  destruct (lookup2 (Annotations node) reasonAnnotation). reflexivity.
Qed.

Lemma Handle_Create (node : Node) :
  Operation req = admissionv1_Create ->
  Decoder n (Object req) emptyNode = Ok node ->
  Handle n environ req
  = let response :=
      validateNoReason (snd (lookup2 (Annotations node) reasonAnnotation)) Create
                       (Username req) in
    if Allowed response
    then (response, createNodeEvent emptyNode EmptyString (Username req) admissionv1_Create)
    else (response, []).
Proof.
  intros Hop Hdec. unfold Handle. rewrite fetched, Hop, Hdec. simpl String.eqb. cbv iota.
  destruct (lookup2 (Annotations node) reasonAnnotation). reflexivity.
Qed.

Lemma Handle_decode_error_Delete (err : error) :
  Operation req = admissionv1_Delete ->
  Decoder n (OldObject req) emptyNode = Err err ->
  Handle n environ req
  = (admission.Errored StatusBadRequest ("failed to decode node " ++ GoFmt.q (Name req)), []).
Proof.
  intros Hop Hdec. unfold Handle. rewrite fetched, Hop, Hdec. reflexivity.
Qed.

(** The update case.  [oldNode] is never decoded into: both calls of
    [DecodeRaw] write to [node], so the switch compares the zero value
    with the object decoded last. *)
Lemma Handle_update (node1 node : Node) :
  Operation req <> admissionv1_Delete ->
  Operation req <> admissionv1_Create ->
  Decoder n (OldObject req) emptyNode = Ok node1 ->
  Decoder n (Object req) node1 = Ok node ->
  Handle n environ req
  = if Unschedulable node
    then userOnlyOperation emptyNode Cordon (Username req) (forbiddenUsersOf environ)
           (fst (lookup2 (Annotations node) reasonAnnotation)) true
           (snd (lookup2 (Annotations node) reasonAnnotation)) allowedReasons reasonRegex
    else (admission.Allowed "Node was updated", []).
Proof.
  intros Hd Hc Hdec1 Hdec2. unfold Handle. rewrite fetched.
  apply String.eqb_neq in Hd, Hc. rewrite Hd, Hc, Hdec1, Hdec2.
  destruct (lookup2 (Annotations node) reasonAnnotation) as [reasonMessage doesReasonExist].
  simpl. destruct (Unschedulable node); reflexivity.
Qed.

End HandleCases.

(** ** The pattern *)

Section PatternFacts.

Import GoRegexp.

Lemma MatchString_compile_error (pattern s : string) (err : ErrorCode) :
  Compile pattern = inl err -> MatchString pattern s = (false, Some err).
Proof. intros H. unfold MatchString. now rewrite H. Qed.

Lemma MatchString_compiled (pattern s : string) (re : Regexp) :
  Compile pattern = inr re -> MatchString pattern s = (Regexp_MatchString re s, None).
Proof. intros H. unfold MatchString. now rewrite H. Qed.

Lemma Compile_empty : Compile EmptyString = inr OpEmptyMatch.
Proof. reflexivity. Qed.

(** Some span of the text is matched. *)
Lemma Regexp_MatchString_spec (re : Regexp) (s : string) :
  Regexp_MatchString re s = true
  <-> exists i j, (i <= j <= List.length (list_ascii_of_string s))%nat
                  /\ matchAt re (list_ascii_of_string s) i j = true.
Proof.
  unfold Regexp_MatchString. cbv zeta. rewrite existsb_exists. split.
  - intros (i & Hi & H). apply existsb_exists in H as (j & Hj & H).
    apply in_seq in Hi, Hj. exists i, j. split; [lia | exact H].
  - intros (i & j & Hij & H). exists i. split; [apply in_seq; lia |].
    apply existsb_exists. exists j. split; [apply in_seq; lia | exact H].
Qed.

(** The empty expression matches the empty span at the start of any
    text. *)
Lemma Regexp_MatchString_empty (s : string) : Regexp_MatchString OpEmptyMatch s = true.
Proof. apply Regexp_MatchString_spec. exists 0%nat, 0%nat. split; [lia | reflexivity]. Qed.

(** *** Patterns of plain characters *)

Lemma stepNormal_plain (st : PState) (c : ascii) (next : option ascii) :
  plainChar c = true -> stepNormal st c next = inr (push (OpLiteral c) st).
Proof.
  intros H. destruct c as [b0 b1 b2 b3 b4 b5 b6 b7].
  destruct b0, b1, b2, b3, b4, b5, b6, b7; try discriminate H; reflexivity.
Qed.

Lemma run_plain (pattern : string) (st : PState) :
  plain pattern = true -> mode st = MNormal ->
  run st pattern = finish (pushAll (list_ascii_of_string pattern) st).
Proof.
  revert st. induction pattern as [|c pattern IH]; intros st Hp Hm; [reflexivity |].
  unfold plain in Hp. simpl in Hp. apply andb_true_iff in Hp as [Hc Hp].
  simpl. unfold step. rewrite Hm, (stepNormal_plain _ _ _ Hc).
  apply IH; [exact Hp | reflexivity].
Qed.

Lemma pushAll_state (cs : list ascii) (st : PState) :
  cs <> [] ->
  pushAll cs st
  = mkPState (stack st)
             (mkFrame (capture (cur st)) (alts (cur st))
                      (rev (map OpLiteral cs) ++ pieces (cur st)))
             false MNormal.
Proof.
  revert st. induction cs as [|c cs IH]; intros st Hne; [congruence |].
  destruct cs as [|c' cs].
  - reflexivity.
  - change (pushAll (c :: c' :: cs) st) with (pushAll (c' :: cs) (push (OpLiteral c) st)).
    rewrite IH by discriminate. simpl. now rewrite <- !app_assoc.
Qed.

Lemma Compile_plain (pattern : string) :
  plain pattern = true ->
  Compile pattern = inr (literals (list_ascii_of_string pattern)).
Proof.
  intros Hp. unfold Compile. rewrite run_plain by (exact Hp || reflexivity).
  destruct (list_ascii_of_string pattern) as [|c cs] eqn:E; [reflexivity |].
  rewrite pushAll_state by discriminate. unfold finish, alternate, literals. simpl.
  now rewrite app_nil_r.
Qed.

Lemma literals_cons (c : ascii) (cs : list ascii) :
  cs <> [] -> literals (c :: cs) = OpConcat (OpLiteral c) (literals cs).
Proof.
  intros Hne. unfold literals. simpl map. simpl rev.
  destruct (rev (map OpLiteral cs)) as [|r rest] eqn:E.
  - apply (f_equal (@List.length _)) in E. rewrite length_rev, length_map in E.
    destruct cs; [congruence | discriminate].
  - simpl. now rewrite fold_left_app.
Qed.

Lemma firstn_skipn_cons {A : Type} (m i : nat) (text : list A) (c : A) (cs : list A) :
  firstn (S m) (skipn i text) = c :: cs
  <-> nth_error text i = Some c /\ firstn m (skipn (S i) text) = cs.
Proof.
  revert text. induction i as [|i IH]; intros text.
  - destruct text as [|x text].
    + simpl. split; [discriminate | intros [H _]; discriminate].
    + change (firstn (S m) (skipn 0 (x :: text))) with (x :: firstn m text).
      change (skipn 1 (x :: text)) with text.
      change (nth_error (x :: text) 0) with (Some x).
      split; [intros H; injection H as E1 E2 | intros [H E2]; injection H as E1];
        now rewrite E1, E2.
  - destruct text as [|x text].
    + simpl. split; [discriminate | intros [H _]; discriminate].
    + change (skipn (S i) (x :: text)) with (skipn i text).
      change (nth_error (x :: text) (S i)) with (nth_error text i).
      change (skipn (S (S i)) (x :: text)) with (skipn (S i) text).
      apply IH.
Qed.

Lemma charAt_spec (p : ascii -> bool) (text : list ascii) (i j : nat) :
  charAt p text i j = true <-> j = S i /\ exists c, nth_error text i = Some c /\ p c = true.
Proof.
  unfold charAt. rewrite andb_true_iff, Nat.eqb_eq.
  destruct (nth_error text i) as [c|].
  - split; [intros [-> H]; eauto | intros [-> (c' & E & H)]; injection E as ->; auto].
  - split; [intros [_ H]; discriminate | intros [_ (c' & E & _)]; discriminate].
Qed.

(** A sequence of literals matches exactly the spans that hold it. *)
Lemma matchAt_literals (cs text : list ascii) (i j : nat) :
  matchAt (literals cs) text i j = true
  <-> j = (i + List.length cs)%nat /\ firstn (List.length cs) (skipn i text) = cs.
Proof.
  revert i. induction cs as [|c cs IH]; intros i.
  - simpl. rewrite Nat.eqb_eq. split; [intros ->; split; [lia | reflexivity] | lia].
  - destruct cs as [|c' cs].
    + change (literals [c]) with (OpLiteral c). simpl matchAt. simpl List.length.
      rewrite charAt_spec, firstn_skipn_cons. simpl firstn. split.
      * intros (-> & x & E & Hx). apply Ascii.eqb_eq in Hx as ->.
        repeat split; [lia | exact E].
      * intros (-> & E & _). split; [lia |]. exists c. split; [exact E | apply Ascii.eqb_refl].
    + rewrite literals_cons by discriminate. simpl matchAt.
      rewrite existsb_exists. change (List.length (c :: c' :: cs)) with (S (List.length (c' :: cs))).
      rewrite firstn_skipn_cons. split.
      * intros (k & _ & H). apply andb_true_iff in H as [H1 H2].
        apply charAt_spec in H1 as (-> & x & E & Hx). apply Ascii.eqb_eq in Hx as ->.
        apply IH in H2 as [-> H2]. repeat split; [lia | exact E | exact H2].
      * intros (-> & E & H). exists (S i). split; [apply in_seq; lia |].
        apply andb_true_iff. split.
        -- apply charAt_spec. split; [reflexivity |]. exists c. split; [exact E | apply Ascii.eqb_refl].
        -- apply IH. split; [lia | exact H].
Qed.

Lemma literals_match_iff_infix (cs text : list ascii) :
  (exists i j, (i <= j <= List.length text)%nat /\ matchAt (literals cs) text i j = true)
  <-> exists before after, text = before ++ cs ++ after.
Proof.
  split.
  - intros (i & j & _ & H). apply matchAt_literals in H as [_ H].
    exists (firstn i text), (skipn (List.length cs) (skipn i text)).
    rewrite <- (firstn_skipn i text) at 1. f_equal.
    rewrite <- (firstn_skipn (List.length cs) (skipn i text)) at 1. now rewrite H.
  - intros (before & after & ->).
    exists (List.length before), (List.length before + List.length cs)%nat. split.
    + rewrite !length_app. lia.
    + apply matchAt_literals. split; [reflexivity |].
      now rewrite drop_app_length, take_app_length.
Qed.

(** A plain pattern matches the reason texts it occurs in. *)
Lemma reasonMatchesPattern_plain (pattern reason : string) :
  plain pattern = true ->
  reasonMatchesPattern pattern reason = true <-> occursIn pattern reason.
Proof.
  intros Hp. unfold reasonMatchesPattern.
  rewrite (MatchString_compiled _ _ _ (Compile_plain _ Hp)).
  rewrite Regexp_MatchString_spec, literals_match_iff_infix. unfold occursIn. split.
  - intros (before & after & E).
    exists (string_of_list_ascii before), (string_of_list_ascii after).
    rewrite <- (string_of_list_ascii_of_string reason), E, !string_of_list_ascii_app.
    now rewrite string_of_list_ascii_of_string.
  - intros (before & after & ->).
    exists (list_ascii_of_string before), (list_ascii_of_string after).
    now rewrite !list_ascii_of_string_app.
Qed.

(** The empty pattern compiles and matches every reason text. *)
Lemma reasonMatchesPattern_empty (reason : string) :
  reasonMatchesPattern EmptyString reason = true.
Proof.
  unfold reasonMatchesPattern.
  rewrite (MatchString_compiled _ _ _ Compile_empty). apply Regexp_MatchString_empty.
Qed.

(** A pattern that does not compile matches nothing. *)
Lemma reasonMatchesPattern_malformed (pattern reason : string) (err : ErrorCode) :
  Compile pattern = inl err -> reasonMatchesPattern pattern reason = false.
Proof.
  intros H. unfold reasonMatchesPattern. now rewrite (MatchString_compile_error _ _ _ H).
Qed.

End PatternFacts.

(** ** Every path of [Handle] *)

Section HandlePaths.

Context {RawExtension : Type}.
Variables (n : NodeValidator RawExtension) (environ : gmap string string).
Variable req : Request RawExtension.

(** The paths of [Handle]: an error response, the create case, the no-op
    of the update switch, or a call of [userOnlyOperation] for a delete or
    a cordon.  No path calls it for an uncordon. *)
Lemma Handle_paths :
  (exists code err, Handle n environ req = (admission.Errored code err, [])
                    /\ err <> EmptyString)
  \/ (exists doesReasonExist,
        Handle n environ req
        = let response := validateNoReason doesReasonExist Create (Username req) in
          if Allowed response
          then (response,
                createNodeEvent emptyNode EmptyString (Username req) admissionv1_Create)
          else (response, []))
  \/ Handle n environ req = (admission.Allowed "Node was updated", [])
  \/ (exists operation reason doesReasonExist allowedReasons reasonRegex,
        (operation = Delete \/ operation = Cordon)
        /\ Handle n environ req
           = userOnlyOperation emptyNode operation (Username req) (forbiddenUsersOf environ)
               reason true doesReasonExist allowedReasons reasonRegex).
Proof.
  unfold Handle.
  destruct (getAllowedReasonsAndPattern n cmNamespace) as [[allowedReasons reasonRegex] | err].
  2: { left. eexists _, _. split; [reflexivity | discriminate]. }
  destruct (String.eqb_spec (Operation req) admissionv1_Delete) as [Hd | Hd].
  { destruct (Decoder n (OldObject req) emptyNode) as [node | err].
    2: { left. eexists _, _. split; [reflexivity | discriminate]. }
    destruct (lookup2 (Annotations node) reasonAnnotation) as [reason doesReasonExist].
    right. right. right. exists Delete, reason, doesReasonExist, allowedReasons, reasonRegex.
    split; [now left | reflexivity]. }
  destruct (String.eqb_spec (Operation req) admissionv1_Create) as [Hc | Hc].
  { destruct (Decoder n (Object req) emptyNode) as [node | err].
    2: { left. eexists _, _. split; [reflexivity | discriminate]. }
    destruct (lookup2 (Annotations node) reasonAnnotation) as [reason doesReasonExist].
    right. left. exists doesReasonExist. now rewrite Hc. }
  destruct (Decoder n (OldObject req) emptyNode) as [node1 | err].
  2: { left. eexists _, _. split; [reflexivity | discriminate]. }
  destruct (Decoder n (Object req) node1) as [node | err].
  2: { left. eexists _, _. split; [reflexivity | discriminate]. }
  destruct (lookup2 (Annotations node) reasonAnnotation) as [reason doesReasonExist].
  simpl. destruct (Unschedulable node).
  - right. right. right. exists Cordon, reason, doesReasonExist, allowedReasons, reasonRegex.
    split; [now right | reflexivity].
  - right. right. now left.
Qed.

(** Once the configuration is fetched no response is an internal error. *)
Lemma Handle_no_internal_error (allowedReasons : list string) (reasonRegex : string) :
  getAllowedReasonsAndPattern n cmNamespace = Ok (allowedReasons, reasonRegex) ->
  Code (fst (Handle n environ req)) <> StatusInternalServerError.
Proof.
  intros fetched. unfold Handle. rewrite fetched.
  destruct (String.eqb (Operation req) admissionv1_Delete).
  { destruct (Decoder n (OldObject req) emptyNode) as [node | err]; [| discriminate].
    destruct (lookup2 (Annotations node) reasonAnnotation) as [reason doesReasonExist].
    match goal with
    | |- context [userOnlyOperation ?a ?b ?c ?d ?e ?f ?g ?h ?i] =>
        destruct (userOnlyOperation_verdict a b c d e f g h i) as (m & [-> | ->])
    end; discriminate. }
  destruct (String.eqb (Operation req) admissionv1_Create).
  { destruct (Decoder n (Object req) emptyNode) as [node | err]; [| discriminate].
    destruct (lookup2 (Annotations node) reasonAnnotation) as [reason []]; discriminate. }
  destruct (Decoder n (OldObject req) emptyNode) as [node1 | err]; [| discriminate].
  destruct (Decoder n (Object req) node1) as [node | err]; [| discriminate].
  destruct (lookup2 (Annotations node) reasonAnnotation) as [reason doesReasonExist].
  simpl. destruct (Unschedulable node); [| discriminate].
  match goal with
  | |- context [userOnlyOperation ?a ?b ?c ?d ?e ?f ?g ?h ?i] =>
      destruct (userOnlyOperation_verdict a b c d e f g h i) as (m & [-> | ->])
  end; discriminate.
Qed.

(** The events of a response: none unless it allows, and then one, except
    on the no-op path of the update switch. *)
Lemma Handle_events :
  if Allowed (fst (Handle n environ req))
  then Handle n environ req = (admission.Allowed "Node was updated", [])
       \/ exists message operation,
            snd (Handle n environ req)
            = createNodeEvent emptyNode message (Username req) operation
  else snd (Handle n environ req) = [].
Proof.
  destruct Handle_paths as
    [(code & err & -> & _) | [(b & ->) | [-> | (op & r & b & a & p & _ & ->)]]].
  - reflexivity.
  - destruct b; simpl; [reflexivity | right; eauto].
  - simpl. now left.
  - pose proof (userOnlyOperation_events emptyNode op (Username req)
                  (forbiddenUsersOf environ) r true b a p) as H.
    destruct (Allowed (fst (userOnlyOperation _ _ _ _ _ _ _ _ _))); [| exact H].
    destruct H as (message & H). right. eauto.
Qed.

End HandlePaths.

(** ** The table of [TestNodeWebhook], run on the model

    The cases of [webhook_test.go] that reach [Handle] (its uncordon cases
    sit inside the cordon branch and never run).  The case
    [DeleteAsUserWithoutValidReason] predates the free text of a delete
    and is left out; [delete_free_text] shows what the code answers. *)

Example test_CreateWithReason :
  testAllowed (createReq regularUserExample (testNode (Some "Testing") false)) = false.
Proof. vm_compute. reflexivity. Qed.

Example test_CreateWithoutReason :
  testAllowed (createReq regularUserExample (testNode None false)) = true.
Proof. vm_compute. reflexivity. Qed.

Example test_DeleteAsKubeadminWithReason :
  testAllowed (deleteReq systemAdminUser (testNode (Some "Testing") false)) = false.
Proof. vm_compute. reflexivity. Qed.

Example test_DeleteAsUserWithoutReason :
  testAllowed (deleteReq regularUserExample (testNode None false)) = false.
Proof. vm_compute. reflexivity. Qed.

Example test_DeleteAsUserWithValidReason :
  testAllowed (deleteReq regularUserExample (testNode (Some "testing") false)) = true.
Proof. vm_compute. reflexivity. Qed.

Example test_CordonAsKubeadminWithReason :
  testAllowed (updateReq systemAdminUser (testNode (Some "Testing") false)
                         (testNode (Some "Testing") true)) = false.
Proof. vm_compute. reflexivity. Qed.

Example test_CordonAsUserWithoutReason :
  testAllowed (updateReq regularUserExample (testNode None false) (testNode None true))
  = false.
Proof. vm_compute. reflexivity. Qed.

Example test_CordonAsUserWithReason :
  testAllowed (updateReq regularUserExample (testNode (Some "Testing") false)
                         (testNode (Some "Testing") true)) = true.
Proof. vm_compute. reflexivity. Qed.

Example test_CordonAsServiceAccountWithoutReason :
  testAllowed (updateReq machineConfigDaemon (testNode None false) (testNode None true))
  = true.
Proof. vm_compute. reflexivity. Qed.

Example delete_free_text :
  Handle (validator (patternConfigMap "^OPS-[0-9]+$")) testEnviron
         (deleteReq regularUserExample (testNode (Some "for fun") false))
  = (admission.Allowed "delete operation has been approved",
     [mkEvent emptyNode EventTypeNormal "NodeOperation: delete" "user: for fun"]).
Proof. vm_compute. reflexivity. Qed.

Example cordon_needs_listed_or_matching_reason :
  Allowed (fst (Handle (validator (patternConfigMap "^OPS-[0-9]+$")) testEnviron
                       (updateReq regularUserExample (testNode (Some "for fun") false)
                                  (testNode (Some "for fun") true)))) = false
  /\ Allowed (fst (Handle (validator (patternConfigMap "^OPS-[0-9]+$")) testEnviron
                          (updateReq regularUserExample (testNode (Some "OPS-42") false)
                                     (testNode (Some "OPS-42") true)))) = true
  /\ Allowed (fst (Handle (validator (patternConfigMap "^OPS-[0-9]+$")) testEnviron
                          (updateReq regularUserExample (testNode (Some "TESTING") false)
                                     (testNode (Some "TESTING") true)))) = true.
Proof. repeat split; vm_compute; reflexivity. Qed.

(** An uncordon on the test's decoder: the JSON of the new object omits
    [unschedulable], the node decoded last keeps the old [true], and the
    request is answered as a cordon. *)
Example uncordon_handled_as_cordon :
  Handle (validator mockConfigMap) testEnviron
         (updateReq regularUserExample (testNode (Some "Testing") true)
                    (testNode (Some "Testing") false))
  = (admission.Allowed "cordon operation has been approved",
     [mkEvent emptyNode EventTypeNormal "NodeOperation: cordon" "user: Testing"]).
Proof. vm_compute. reflexivity. Qed.

(** ** The pattern model on a few expressions *)

Example match_anywhere : GoRegexp.MatchString "a" "xay" = (true, None).
Proof. vm_compute. reflexivity. Qed.

Example match_anchored_by_the_pattern :
  GoRegexp.MatchString "^a$" "xay" = (false, None)
  /\ GoRegexp.MatchString "^a$" "a" = (true, None)
  /\ GoRegexp.MatchString "\Aa\z" "a" = (true, None).
Proof. repeat split; vm_compute; reflexivity. Qed.

Example match_case_sensitive :
  GoRegexp.MatchString "testing" "Testing" = (false, None)
  /\ GoRegexp.MatchString "^[A-Z]+-[0-9]+$" "OPS-123" = (true, None)
  /\ GoRegexp.MatchString "^[A-Z]+-[0-9]+$" "ops-123" = (false, None).
Proof. repeat split; vm_compute; reflexivity. Qed.

Example match_groups_and_repetition :
  GoRegexp.MatchString "^(ab|c)+d?$" "abcab" = (true, None)
  /\ GoRegexp.MatchString "^(?:ab|c)+?d$" "abcab" = (false, None)
  /\ GoRegexp.MatchString "[^]a-c]x\." "zdx." = (true, None)
  /\ GoRegexp.MatchString "^a.c$" "abc" = (true, None).
Proof. repeat split; vm_compute; reflexivity. Qed.

Example compile_errors :
  GoRegexp.Compile "(" = inl GoRegexp.ErrMissingParen
  /\ GoRegexp.Compile "a)" = inl GoRegexp.ErrUnexpectedParen
  /\ GoRegexp.Compile "[a" = inl GoRegexp.ErrMissingBracket
  /\ GoRegexp.Compile "[z-a]" = inl GoRegexp.ErrInvalidCharRange
  /\ GoRegexp.Compile "*a" = inl GoRegexp.ErrMissingRepeatArgument
  /\ GoRegexp.Compile "a**" = inl GoRegexp.ErrInvalidRepeatOp
  /\ GoRegexp.Compile "a\" = inl GoRegexp.ErrTrailingBackslash
  /\ GoRegexp.Compile "\q" = inl GoRegexp.ErrInvalidEscape.
Proof. repeat split; vm_compute; reflexivity. Qed.

Example split_examples :
  GoStrings.Split "a,b,,c" "," = ["a"; "b"; EmptyString; "c"]
  /\ GoStrings.Split EmptyString "," = [EmptyString]
  /\ GoStrings.Split "system:admin,kube:admin" "," = ["system:admin"; "kube:admin"].
Proof. repeat split; vm_compute; reflexivity. Qed.

(** * The claims *)

(** C1 (the code departs from it).  The claim: an update is a Cordon
    exactly when the unschedulable flag flips from false to true, an
    Uncordon exactly when it flips from true to false, and a no-op
    otherwise.  The code compares the node decoded last with [oldNode],
    which is never decoded into: both calls of [DecodeRaw] write to [node].
    So, whatever the decoder, no request is answered by the uncordon case:
    an update is answered as a Cordon when the node decoded last is
    unschedulable and as a no-op otherwise.  A cordoned node that stays
    cordoned is thus handled as a Cordon: the regular user without a reason
    is denied and told to add one. *)
Theorem C1_update_switch_compares_with_zero_node :
  (forall (RawExtension : Type) (n : NodeValidator RawExtension)
          (environ : gmap string string) (req : Request RawExtension),
      (exists code err, Handle n environ req = (admission.Errored code err, []))
      \/ (exists doesReasonExist,
            fst (Handle n environ req)
            = validateNoReason doesReasonExist Create (Username req))
      \/ Handle n environ req = (admission.Allowed "Node was updated", [])
      \/ (exists operation reason doesReasonExist allowedReasons reasonRegex,
            (operation = Delete \/ operation = Cordon)
            /\ Handle n environ req
               = userOnlyOperation emptyNode operation (Username req)
                   (forbiddenUsersOf environ) reason true doesReasonExist
                   allowedReasons reasonRegex))
  /\ Handle (validator mockConfigMap) testEnviron
            (updateReq regularUserExample (testNode None true) (testNode None true))
     = (admission.Denied ("You must add " ++ GoFmt.q reasonAnnotation ++ " annotation"), []).
Proof.
  split; [| vm_compute; reflexivity].
  intros RawExtension n environ req.
  destruct (Handle_paths n environ req) as
    [(code & err & H & _) | [(b & H) | [H | H]]].
  - left. eauto.
  - right. left. exists b. rewrite H. now destruct b.
  - right. right. now left.
  - right. right. now right.
Qed.

(** C2 as stated fails on a create: a service account that creates a node
    carrying the reason annotation is denied, because the create case never
    looks at the user. *)
Lemma C2_counterexample :
  isServiceAccount machineConfigDaemon = true
  /\ isForbiddenUser machineConfigDaemon (forbiddenUsersOf testEnviron) = false
  /\ Handle (validator mockConfigMap) testEnviron
            (createReq machineConfigDaemon (testNode (Some "Testing") false))
     = (admission.Denied ("Don't forget to remove the " ++ GoFmt.q reasonAnnotation
                          ++ " annotation from the node"), []).
Proof. repeat split; vm_compute; reflexivity. Qed.

(** C2, amended.  A user with the service-account or the node prefix that
    is not forbidden is allowed, with one event, whatever operation
    [userOnlyOperation] is asked about and whatever the reason; so its
    deletes and its cordons are allowed.  A create is not checked against
    the user: it is allowed exactly when the reason annotation is absent. *)
Theorem C2_trusted_identities {RawExtension : Type}
    (n : NodeValidator RawExtension) (environ : gmap string string)
    (req : Request RawExtension) (allowedReasons : list string) (reasonRegex : string) :
  getAllowedReasonsAndPattern n cmNamespace = Ok (allowedReasons, reasonRegex) ->
  isForbiddenUser (Username req) (forbiddenUsersOf environ) = false ->
  isServiceAccount (Username req) = true \/ isNode (Username req) = true ->
  (forall node operation reason isReasonRequired doesReasonExist allowed pattern,
      let response :=
        userOnlyOperation node operation (Username req) (forbiddenUsersOf environ) reason
                          isReasonRequired doesReasonExist allowed pattern in
      Allowed (fst response) = true
      /\ snd response = createNodeEvent node reason (Username req) operation)
  /\ (forall node,
         Operation req = admissionv1_Delete ->
         Decoder n (OldObject req) emptyNode = Ok node ->
         Allowed (fst (Handle n environ req)) = true)
  /\ (forall node1 node,
         Operation req <> admissionv1_Delete ->
         Operation req <> admissionv1_Create ->
         Decoder n (OldObject req) emptyNode = Ok node1 ->
         Decoder n (Object req) node1 = Ok node ->
         Unschedulable node1 = false ->
         Unschedulable node = true ->
         Allowed (fst (Handle n environ req)) = true)
  /\ (forall node,
         Operation req = admissionv1_Create ->
         Decoder n (Object req) emptyNode = Ok node ->
         Allowed (fst (Handle n environ req))
         = negb (snd (lookup2 (Annotations node) reasonAnnotation))).
Proof.
  intros fetched Hforbidden Htrusted.
  assert (Hallowed : forall node operation reason isReasonRequired doesReasonExist allowed pattern,
             let response :=
               userOnlyOperation node operation (Username req) (forbiddenUsersOf environ) reason
                                 isReasonRequired doesReasonExist allowed pattern in
             Allowed (fst response) = true
             /\ snd response = createNodeEvent node reason (Username req) operation).
  { intros. subst response.
    destruct (isServiceAccount (Username req)) eqn:Hsa.
    - now rewrite userOnlyOperation_serviceAccount.
    - destruct Htrusted as [Hsa' | Hnode]; [discriminate |].
      now rewrite userOnlyOperation_node. }
  split; [exact Hallowed |]. split; [| split].
  - intros node Hop Hdec.
    rewrite (Handle_Delete n environ req _ _ fetched node Hop Hdec). apply Hallowed.
  - intros node1 node Hd Hc Hdec1 Hdec2 _ Hafter.
    rewrite (Handle_update n environ req _ _ fetched node1 node Hd Hc Hdec1 Hdec2), Hafter.
    apply Hallowed.
  - intros node Hop Hdec.
    rewrite (Handle_Create n environ req _ _ fetched node Hop Hdec).
    destruct (snd (lookup2 (Annotations node) reasonAnnotation)); reflexivity.
Qed.

Lemma C2_trusted_identities_witness :
  Allowed (fst (Handle (validator mockConfigMap) testEnviron
                       (updateReq kubelet (testNode None false) (testNode None true))))
  = true.
Proof.
  assert (fetched : getAllowedReasonsAndPattern (validator mockConfigMap) cmNamespace
                    = Ok (["Testing"; "Unauthorized access"; "Invalid configuration";
                           "Dependency error"], EmptyString))
    by (vm_compute; reflexivity).
  assert (Hforbidden : isForbiddenUser kubelet (forbiddenUsersOf testEnviron) = false)
    by (vm_compute; reflexivity).
  assert (Htrusted : isServiceAccount kubelet = true \/ isNode kubelet = true)
    by (right; vm_compute; reflexivity).
  destruct (C2_trusted_identities (validator mockConfigMap) testEnviron
              (updateReq kubelet (testNode None false) (testNode None true))
              _ _ fetched Hforbidden Htrusted) as (_ & _ & Hcordon & _).
  apply (Hcordon (testNode None false) (testNode None true));
    solve [discriminate | reflexivity].
Defined.

(** C3 as stated fails on a create: the built-in superuser, which is
    always forbidden, creates a node without the reason annotation and is
    allowed. *)
Lemma C3_counterexample :
  isForbiddenUser systemAdminUser (forbiddenUsersOf testEnviron) = true
  /\ Handle (validator mockConfigMap) testEnviron
            (createReq systemAdminUser (testNode None false))
     = (admission.Allowed "Operation approved",
        [mkEvent emptyNode EventTypeNormal "NodeOperation: CREATE" "system:admin: "]).
Proof. repeat split; vm_compute; reflexivity. Qed.

(** C3, amended.  The forbidden list always holds the built-in superuser.
    A forbidden user is denied, with no event, whatever operation
    [userOnlyOperation] is asked about and whatever the reason; so its
    deletes and its cordons are denied.  A create is not checked against
    the user: it is allowed exactly when the reason annotation is absent. *)
Theorem C3_forbidden_users_denied {RawExtension : Type}
    (n : NodeValidator RawExtension) (environ : gmap string string)
    (req : Request RawExtension) (allowedReasons : list string) (reasonRegex : string) :
  getAllowedReasonsAndPattern n cmNamespace = Ok (allowedReasons, reasonRegex) ->
  isForbiddenUser (Username req) (forbiddenUsersOf environ) = true ->
  isForbiddenUser systemAdminUser (forbiddenUsersOf environ) = true
  /\ (forall node operation reason isReasonRequired doesReasonExist allowed pattern,
         let response :=
           userOnlyOperation node operation (Username req) (forbiddenUsersOf environ) reason
                             isReasonRequired doesReasonExist allowed pattern in
         Allowed (fst response) = false /\ snd response = [])
  /\ (forall node,
         Operation req = admissionv1_Delete ->
         Decoder n (OldObject req) emptyNode = Ok node ->
         Allowed (fst (Handle n environ req)) = false /\ snd (Handle n environ req) = [])
  /\ (forall node1 node,
         Operation req <> admissionv1_Delete ->
         Operation req <> admissionv1_Create ->
         Decoder n (OldObject req) emptyNode = Ok node1 ->
         Decoder n (Object req) node1 = Ok node ->
         Unschedulable node1 = false ->
         Unschedulable node = true ->
         Allowed (fst (Handle n environ req)) = false /\ snd (Handle n environ req) = [])
  /\ (forall node,
         Operation req = admissionv1_Create ->
         Decoder n (Object req) emptyNode = Ok node ->
         Allowed (fst (Handle n environ req))
         = negb (snd (lookup2 (Annotations node) reasonAnnotation))).
Proof.
  intros fetched Hforbidden.
  assert (Hdenied : forall node operation reason isReasonRequired doesReasonExist allowed pattern,
             let response :=
               userOnlyOperation node operation (Username req) (forbiddenUsersOf environ) reason
                                 isReasonRequired doesReasonExist allowed pattern in
             Allowed (fst response) = false /\ snd response = []).
  { intros. subst response. now rewrite userOnlyOperation_forbidden. }
  split; [apply systemAdminUser_forbidden |]. split; [exact Hdenied |]. split; [| split].
  - intros node Hop Hdec.
    rewrite (Handle_Delete n environ req _ _ fetched node Hop Hdec). apply Hdenied.
  - intros node1 node Hd Hc Hdec1 Hdec2 _ Hafter.
    rewrite (Handle_update n environ req _ _ fetched node1 node Hd Hc Hdec1 Hdec2), Hafter.
    apply Hdenied.
  - intros node Hop Hdec.
    rewrite (Handle_Create n environ req _ _ fetched node Hop Hdec).
    destruct (snd (lookup2 (Annotations node) reasonAnnotation)); reflexivity.
Qed.

Lemma C3_forbidden_users_denied_witness :
  Allowed (fst (Handle (validator mockConfigMap) testEnviron
                       (deleteReq systemAdminUser (testNode (Some "Testing") false))))
  = false.
Proof.
  assert (fetched : getAllowedReasonsAndPattern (validator mockConfigMap) cmNamespace
                    = Ok (["Testing"; "Unauthorized access"; "Invalid configuration";
                           "Dependency error"], EmptyString))
    by (vm_compute; reflexivity).
  assert (Hforbidden : isForbiddenUser systemAdminUser (forbiddenUsersOf testEnviron) = true)
    by (vm_compute; reflexivity).
  destruct (C3_forbidden_users_denied (validator mockConfigMap) testEnviron
              (deleteReq systemAdminUser (testNode (Some "Testing") false))
              _ _ fetched Hforbidden) as (_ & _ & Hdelete & _).
  exact (proj1 (Hdelete (testNode (Some "Testing") false) eq_refl eq_refl)).
Defined.

(** C4 as stated fails twice: the empty pattern accepts a reason text, and
    a pattern accepts a text it matches only a part of. *)
Lemma C4_counterexample :
  reasonMatchesPattern EmptyString "for fun" = true
  /\ reasonMatchesPattern "Test" "Load Testing today" = true.
Proof. split; vm_compute; reflexivity. Qed.

(** C4, amended.  The check is case-sensitive but not anchored, and the
    empty pattern accepts every reason text: a pattern of plain characters
    (ASCII, none of them with a meaning of its own in a regular expression)
    accepts exactly the reason texts it occurs in. *)
Theorem C4_pattern_matches_anywhere (pattern reason : string) :
  plain pattern = true ->
  (reasonMatchesPattern pattern reason = true <-> occursIn pattern reason)
  /\ reasonMatchesPattern EmptyString reason = true.
Proof.
  intros Hp. split; [exact (reasonMatchesPattern_plain pattern reason Hp) |].
  apply reasonMatchesPattern_empty.
Qed.

Lemma C4_pattern_matches_anywhere_witness :
  reasonMatchesPattern "Test" "Load Testing today" = true
  <-> occursIn "Test" "Load Testing today".
Proof.
  exact (proj1 (C4_pattern_matches_anywhere "Test" "Load Testing today" eq_refl)).
Defined.

(** C5 as stated fails on the cordon: with no allowed reasons and no
    pattern in the ConfigMap, a regular user's cordon with the reason
    [for fun] is allowed. *)
Lemma C5_counterexample :
  getAllowedReasonsAndPattern (validator emptyConfigMap) cmNamespace
  = Ok ([EmptyString], EmptyString)
  /\ regularUser regularUserExample (forbiddenUsersOf testEnviron) = true
  /\ Handle (validator emptyConfigMap) testEnviron
            (updateReq regularUserExample (testNode (Some "for fun") false)
                       (testNode (Some "for fun") true))
     = (admission.Allowed "cordon operation has been approved",
        [mkEvent emptyNode EventTypeNormal "NodeOperation: cordon" "user: for fun"]).
Proof. repeat split; vm_compute; reflexivity. Qed.

(** C5, amended.  With the allowed reasons and the pattern both empty (or
    missing from the ConfigMap), a regular user's delete with a reason
    annotation that is not empty is allowed, and a regular user's cordon
    with any reason annotation is allowed as well: the empty pattern
    matches every reason text. *)
Theorem C5_empty_policy {RawExtension : Type}
    (n : NodeValidator RawExtension) (environ : gmap string string)
    (req : Request RawExtension) (cm : ConfigMap) :
  Client n (mkObjectKey cmNamespace cmName) = Ok cm ->
  fst (lookup2 (Data cm) allowedReasonsKey) = EmptyString ->
  fst (lookup2 (Data cm) reasonRegexPatternKey) = EmptyString ->
  regularUser (Username req) (forbiddenUsersOf environ) = true ->
  (forall node reason,
      Operation req = admissionv1_Delete ->
      Decoder n (OldObject req) emptyNode = Ok node ->
      Annotations node !! reasonAnnotation = Some reason ->
      reason <> EmptyString ->
      Handle n environ req
      = (admission.Allowed "delete operation has been approved",
         createNodeEvent emptyNode reason (Username req) Delete))
  /\ (forall node1 node reason,
         Operation req <> admissionv1_Delete ->
         Operation req <> admissionv1_Create ->
         Decoder n (OldObject req) emptyNode = Ok node1 ->
         Decoder n (Object req) node1 = Ok node ->
         Unschedulable node1 = false ->
         Unschedulable node = true ->
         Annotations node !! reasonAnnotation = Some reason ->
         Handle n environ req
         = (admission.Allowed "cordon operation has been approved",
            createNodeEvent emptyNode reason (Username req) Cordon)).
Proof.
  intros Hcm Hallowed Hpattern Hregular.
  pose proof (getAllowedReasonsAndPattern_ok n cmNamespace cm Hcm) as fetched.
  rewrite Hallowed, Hpattern in fetched. split.
  - intros node reason Hop Hdec Hreason _.
    rewrite (Handle_Delete n environ req _ _ fetched node Hop Hdec).
    unfold lookup2. rewrite Hreason. cbn [fst snd].
    rewrite userOnlyOperation_regular_reason by (exact Hregular || reflexivity).
    now rewrite reasonMatchesPattern_empty, orb_true_r.
  - intros node1 node reason Hd Hc Hdec1 Hdec2 _ Hafter Hreason.
    rewrite (Handle_update n environ req _ _ fetched node1 node Hd Hc Hdec1 Hdec2), Hafter.
    unfold lookup2. rewrite Hreason. cbn [fst snd].
    rewrite userOnlyOperation_regular_reason by (exact Hregular || reflexivity).
    now rewrite reasonMatchesPattern_empty, orb_true_r.
Qed.

Lemma C5_empty_policy_witness :
  Handle (validator emptyConfigMap) testEnviron
         (updateReq regularUserExample (testNode (Some "for fun") false)
                    (testNode (Some "for fun") true))
  = (admission.Allowed "cordon operation has been approved",
     createNodeEvent emptyNode "for fun" regularUserExample Cordon).
Proof.
  assert (Hcm : Client (validator emptyConfigMap) (mkObjectKey cmNamespace cmName)
                = Ok emptyConfigMap) by reflexivity.
  assert (Hallowed : fst (lookup2 (Data emptyConfigMap) allowedReasonsKey) = EmptyString)
    by reflexivity.
  assert (Hpattern : fst (lookup2 (Data emptyConfigMap) reasonRegexPatternKey) = EmptyString)
    by reflexivity.
  assert (Hregular : regularUser regularUserExample (forbiddenUsersOf testEnviron) = true)
    by (vm_compute; reflexivity).
  destruct (C5_empty_policy (validator emptyConfigMap) testEnviron
              (updateReq regularUserExample (testNode (Some "for fun") false)
                         (testNode (Some "for fun") true))
              emptyConfigMap Hcm Hallowed Hpattern Hregular) as [_ Hcordon].
  apply (Hcordon (testNode (Some "for fun") false) (testNode (Some "for fun") true));
    solve [discriminate | reflexivity | vm_compute; reflexivity].
Defined.

(** C6.  When the ConfigMap cannot be fetched, every request gets the
    internal-error response (status 500, no event), which is neither a
    denial nor an allow; nothing of the request is looked at. *)
Theorem C6_fetch_failure_is_internal_error {RawExtension : Type}
    (n : NodeValidator RawExtension) (environ : gmap string string)
    (req : Request RawExtension) (err : error) :
  Client n (mkObjectKey cmNamespace cmName) = Err err ->
  Handle n environ req
  = (admission.Errored StatusInternalServerError
       ("failed to fetch allowed reasons: failed to fetch ConfigMap "
        ++ cmNamespace ++ "/" ++ cmName ++ ": " ++ err), [])
  /\ Code (fst (Handle n environ req)) = StatusInternalServerError
  /\ (forall message, fst (Handle n environ req) <> admission.Denied message)
  /\ (forall message, fst (Handle n environ req) <> admission.Allowed message).
Proof.
  intros H.
  rewrite (Handle_fetch_error n environ req _
             (getAllowedReasonsAndPattern_error n cmNamespace err H)).
  repeat split; intros; discriminate.
Qed.

Lemma C6_fetch_failure_is_internal_error_witness :
  Code (fst (Handle (mkNodeValidator (option Node) decodeNode emptyClient) testEnviron
                    (deleteReq regularUserExample (testNode (Some "Testing") false))))
  = StatusInternalServerError.
Proof.
  apply (C6_fetch_failure_is_internal_error
           (mkNodeValidator (option Node) decodeNode emptyClient) testEnviron
           (deleteReq regularUserExample (testNode (Some "Testing") false))
           "configmap not found").
  reflexivity.
Defined.

(** C7.  A pattern that Go refuses to compile never matches, and nothing
    fails: [regexp.MatchString] returns [false] with the error, which
    [reasonMatchesPattern] drops.  With such a pattern the acceptance of a
    reason is that of the two other clauses, the allowed list and the free
    text of a delete, and the verdict of [userOnlyOperation] is the one
    these two give. *)
Theorem C7_malformed_pattern_never_matches (pattern : string) (err : GoRegexp.ErrorCode) :
  GoRegexp.Compile pattern = inl err ->
  err <> GoRegexp.Unsupported ->
  (forall reason,
      GoRegexp.MatchString pattern reason = (false, Some err)
      /\ reasonMatchesPattern pattern reason = false)
  /\ (forall allowedReasons operation reason,
         reasonIsAllowed allowedReasons reason
         || reasonMatchesPattern pattern reason
         || isReasonFreetext operation reason
         = reasonIsAllowed allowedReasons reason || isReasonFreetext operation reason)
  /\ (forall node operation user forbiddenUsers reason isReasonRequired doesReasonExist
             allowedReasons,
         Allowed (fst (userOnlyOperation node operation user forbiddenUsers reason
                                         isReasonRequired doesReasonExist allowedReasons
                                         pattern))
         = if isForbiddenUser user forbiddenUsers then false
           else if isServiceAccount user || isNode user then true
           else if isReasonRequired
                then doesReasonExist
                     && (reasonIsAllowed allowedReasons reason
                         || isReasonFreetext operation reason)
                else negb doesReasonExist).
Proof.
  intros Hbad _.
  assert (Hno : forall reason, reasonMatchesPattern pattern reason = false)
    by (intros reason; exact (reasonMatchesPattern_malformed pattern reason err Hbad)).
  split; [intros reason; split; [now apply MatchString_compile_error | apply Hno] |]. split.
  - intros allowedReasons operation reason. now rewrite Hno, orb_false_r.
  - intros. unfold userOnlyOperation, validateNoReason. rewrite Hno, orb_false_r.
    destruct (isForbiddenUser user forbiddenUsers), (isServiceAccount user), (isNode user),
      isReasonRequired, doesReasonExist,
      (reasonIsAllowed allowedReasons reason || isReasonFreetext operation reason);
      reflexivity.
Qed.

Lemma C7_malformed_pattern_never_matches_witness :
  reasonMatchesPattern "[a-z" "testing" = false
  /\ Handle (validator (patternConfigMap "[a-z")) testEnviron
            (updateReq regularUserExample (testNode (Some "maintenance") false)
                       (testNode (Some "maintenance") true))
     = (admission.Denied ("Invalid reason " ++ GoFmt.q "maintenance"
                          ++ ". Allowed reasons: [Testing]"), []).
Proof.
  assert (Hbad : GoRegexp.Compile "[a-z" = inl GoRegexp.ErrMissingBracket) by reflexivity.
  assert (Hgo : GoRegexp.ErrMissingBracket <> GoRegexp.Unsupported) by discriminate.
  split.
  - exact (proj2 (proj1 (C7_malformed_pattern_never_matches "[a-z"
                           GoRegexp.ErrMissingBracket Hbad Hgo)
                        "testing")).
  - vm_compute. reflexivity.
Defined.

(** C8 (the code departs from it).  The claim: one audit event with every
    allow of a Create, Delete, Cordon or Uncordon, none with a denial, and
    none with a no-op update, which is always allowed.  Operation by
    operation the code does so ([userOnlyOperation_events],
    [Handle_events]), but the update switch takes a cordoned node that
    stays cordoned for a Cordon: such a no-op by a service account is
    audited as a cordon, and by a regular user without a reason it is
    denied. *)
Theorem C8_noop_update_handled_as_cordon :
  Handle (validator mockConfigMap) testEnviron
         (updateReq machineConfigDaemon (testNode None true) (testNode None true))
  = (admission.Allowed ("Service account " ++ GoFmt.q machineConfigDaemon
                        ++ " is allowed to do everything"),
     [mkEvent emptyNode EventTypeNormal "NodeOperation: cordon"
              (machineConfigDaemon ++ ": ")])
  /\ Handle (validator mockConfigMap) testEnviron
            (updateReq regularUserExample (testNode None true) (testNode None true))
     = (admission.Denied ("You must add " ++ GoFmt.q reasonAnnotation ++ " annotation"), []).
Proof. split; vm_compute; reflexivity. Qed.

(** C9.  The response of every path of [Handle], verdict or error, carries
    a message that is not empty. *)
Theorem C9_message_never_empty {RawExtension : Type}
    (n : NodeValidator RawExtension) (environ : gmap string string)
    (req : Request RawExtension) :
  Message (fst (Handle n environ req)) <> EmptyString.
Proof.
  destruct (Handle_paths n environ req) as
    [(code & err & -> & Hne) | [(b & ->) | [-> | (op & r & b & a & p & _ & ->)]]].
  - exact Hne.
  - destruct b; discriminate.
  - discriminate.
  - apply userOnlyOperation_message.
Qed.

(** C10.  With the environment variable unset or empty, [strings.Split]
    gives the list holding the empty string, so the forbidden list is the
    empty string and the superuser: a request with the empty username is
    denied, with no event, by [userOnlyOperation] whatever the operation
    and the reason, hence on a delete and on a cordon. *)
Theorem C10_empty_username_is_forbidden {RawExtension : Type}
    (n : NodeValidator RawExtension) (environ : gmap string string)
    (req : Request RawExtension) (allowedReasons : list string) (reasonRegex : string) :
  environ !! ForbiddenUsersEnv = None \/ environ !! ForbiddenUsersEnv = Some EmptyString ->
  GoStrings.Split (Getenv environ ForbiddenUsersEnv) "," = [EmptyString]
  /\ forbiddenUsersOf environ = [EmptyString; systemAdminUser]
  /\ isForbiddenUser EmptyString (forbiddenUsersOf environ) = true
  /\ (forall node operation reason isReasonRequired doesReasonExist allowed pattern,
        let response :=
          userOnlyOperation node operation EmptyString (forbiddenUsersOf environ) reason
                            isReasonRequired doesReasonExist allowed pattern in
        Allowed (fst response) = false /\ snd response = [])
  /\ (Username req = EmptyString ->
      getAllowedReasonsAndPattern n cmNamespace = Ok (allowedReasons, reasonRegex) ->
      (forall node,
          Operation req = admissionv1_Delete ->
          Decoder n (OldObject req) emptyNode = Ok node ->
          Allowed (fst (Handle n environ req)) = false
          /\ snd (Handle n environ req) = [])
      /\ (forall node1 node,
             Operation req <> admissionv1_Delete ->
             Operation req <> admissionv1_Create ->
             Decoder n (OldObject req) emptyNode = Ok node1 ->
             Decoder n (Object req) node1 = Ok node ->
             Unschedulable node1 = false ->
             Unschedulable node = true ->
             Allowed (fst (Handle n environ req)) = false
             /\ snd (Handle n environ req) = [])).
Proof.
  intros Henv.
  assert (Hget : Getenv environ ForbiddenUsersEnv = EmptyString).
  { unfold Getenv. destruct Henv as [-> | ->]; reflexivity. }
  assert (Hlist : forbiddenUsersOf environ = [EmptyString; systemAdminUser]).
  { unfold forbiddenUsersOf. now rewrite Hget. }
  assert (Hforbidden : isForbiddenUser EmptyString (forbiddenUsersOf environ) = true).
  { now rewrite Hlist. }
  assert (Hdenied : forall node operation reason isReasonRequired doesReasonExist allowed pattern,
             let response :=
               userOnlyOperation node operation EmptyString (forbiddenUsersOf environ) reason
                                 isReasonRequired doesReasonExist allowed pattern in
             Allowed (fst response) = false /\ snd response = []).
  { intros. subst response. now rewrite userOnlyOperation_forbidden. }
  split; [now rewrite Hget |]. split; [exact Hlist |]. split; [exact Hforbidden |].
  split; [exact Hdenied |].
  intros Huser fetched. split.
  - intros node Hop Hdec.
    rewrite (Handle_Delete n environ req _ _ fetched node Hop Hdec), Huser. apply Hdenied.
  - intros node1 node Hd Hc Hdec1 Hdec2 _ Hafter.
    rewrite (Handle_update n environ req _ _ fetched node1 node Hd Hc Hdec1 Hdec2).
    rewrite Hafter, Huser. apply Hdenied.
Qed.

Lemma C10_empty_username_is_forbidden_witness :
  Allowed (fst (Handle (validator mockConfigMap) ∅
                       (deleteReq EmptyString (testNode (Some "Testing") false))))
  = false.
Proof.
  assert (Henv : (∅ : gmap string string) !! ForbiddenUsersEnv = None
                 \/ (∅ : gmap string string) !! ForbiddenUsersEnv = Some EmptyString)
    by (left; reflexivity).
  assert (fetched : getAllowedReasonsAndPattern (validator mockConfigMap) cmNamespace
                    = Ok (["Testing"; "Unauthorized access"; "Invalid configuration";
                           "Dependency error"], EmptyString))
    by (vm_compute; reflexivity).
  destruct (C10_empty_username_is_forbidden (validator mockConfigMap) ∅
              (deleteReq EmptyString (testNode (Some "Testing") false))
              ["Testing"; "Unauthorized access"; "Invalid configuration"; "Dependency error"]
              EmptyString Henv)
    as (_ & _ & _ & _ & H).
  destruct (H eq_refl fetched) as [Hdelete _].
  exact (proj1 (Hdelete (testNode (Some "Testing") false) eq_refl eq_refl)).
Defined.

(** * Further properties *)

(** ** Requests and responses *)

(** X1.  The answer to a create depends neither on the user nor on the
    forbidden list: the same request from any other user, under any other
    environment, gets the same response. *)
Theorem Create_ignores_identity {RawExtension : Type}
    (n : NodeValidator RawExtension) (environ environ' : gmap string string)
    (req : Request RawExtension) (user' : string) :
  Operation req = admissionv1_Create ->
  fst (Handle n environ req) = fst (Handle n environ' (withUser req user')).
Proof.
  intros Hop. unfold Handle, withUser. cbn [Operation Username OldObject Object Name].
  rewrite Hop. cbn [String.eqb Ascii.eqb Bool.eqb]. cbv iota.
  destruct (getAllowedReasonsAndPattern n cmNamespace) as [[allowedReasons reasonRegex] | err];
    [| reflexivity].
  destruct (Decoder n (Object req) emptyNode) as [node | err]; [| reflexivity].
  destruct (lookup2 (Annotations node) reasonAnnotation) as [reason []]; reflexivity.
Qed.

Lemma Create_ignores_identity_witness :
  fst (Handle (validator mockConfigMap) testEnviron
              (createReq regularUserExample (testNode None false)))
  = fst (Handle (validator mockConfigMap) ∅
                (withUser (createReq regularUserExample (testNode None false))
                          systemAdminUser)).
Proof.
  exact (Create_ignores_identity (validator mockConfigMap) testEnviron ∅
           (createReq regularUserExample (testNode None false)) systemAdminUser eq_refl).
Defined.

(** X2.  Once the configuration is fetched, the response is a bad request
    (status 400) exactly when the node of the request cannot be decoded;
    the message then quotes the name of the request and no event is
    recorded. *)
Theorem Handle_bad_request_iff {RawExtension : Type}
    (n : NodeValidator RawExtension) (environ : gmap string string)
    (req : Request RawExtension) (allowedReasons : list string) (reasonRegex : string) :
  getAllowedReasonsAndPattern n cmNamespace = Ok (allowedReasons, reasonRegex) ->
  (Code (fst (Handle n environ req)) = StatusBadRequest
   <-> exists err, requestNode n req = Err err)
  /\ (forall err,
         requestNode n req = Err err ->
         Handle n environ req
         = (admission.Errored StatusBadRequest
              ("failed to decode node " ++ GoFmt.q (Name req)), [])).
Proof.
  intros fetched. unfold Handle, requestNode. rewrite fetched.
  assert (Hverdict : forall node op user forbidden reason req' ex allowed pattern,
             Code (fst (userOnlyOperation node op user forbidden reason req' ex allowed pattern))
             <> StatusBadRequest).
  { intros.
    destruct (userOnlyOperation_verdict node op user forbidden reason req' ex allowed pattern)
      as (m & [-> | ->]); discriminate. }
  destruct (String.eqb (Operation req) admissionv1_Delete).
  { destruct (Decoder n (OldObject req) emptyNode) as [node | err].
    - destruct (lookup2 (Annotations node) reasonAnnotation) as [reason ex]. split.
      + split; [intros H; now apply Hverdict in H | intros (e & H); discriminate].
      + intros e H. discriminate.
    - split; [split; eauto | reflexivity]. }
  destruct (String.eqb (Operation req) admissionv1_Create).
  { destruct (Decoder n (Object req) emptyNode) as [node | err].
    - destruct (lookup2 (Annotations node) reasonAnnotation) as [reason []]; split;
        solve [ split; [discriminate | intros (e & H); discriminate]
              | intros e H; discriminate ].
    - split; [split; eauto | reflexivity]. }
  destruct (Decoder n (OldObject req) emptyNode) as [node1 | err].
  2: { split; [split; eauto | reflexivity]. }
  destruct (Decoder n (Object req) node1) as [node | err].
  2: { split; [split; eauto | reflexivity]. }
  destruct (lookup2 (Annotations node) reasonAnnotation) as [reason ex].
  simpl. destruct (Unschedulable node); split;
    solve [ split; [intros H; now apply Hverdict in H | intros (e & H); discriminate]
          | split; [discriminate | intros (e & H); discriminate]
          | intros e H; discriminate ].
Qed.

Lemma Handle_bad_request_iff_witness :
  Handle (validator mockConfigMap) testEnviron
         (mkRequest (option Node) "worker-0" admissionv1_Update regularUserExample
                    (Some (testNode None false)) None)
  = (admission.Errored StatusBadRequest ("failed to decode node " ++ GoFmt.q "worker-0"), []).
Proof.
  assert (fetched : getAllowedReasonsAndPattern (validator mockConfigMap) cmNamespace
                    = Ok (["Testing"; "Unauthorized access"; "Invalid configuration";
                           "Dependency error"], EmptyString))
    by (vm_compute; reflexivity).
  apply (proj2 (Handle_bad_request_iff (validator mockConfigMap) testEnviron
                  (mkRequest (option Node) "worker-0" admissionv1_Update regularUserExample
                             (Some (testNode None false)) None)
                  _ _ fetched)
               "there is no content to decode").
  reflexivity.
Defined.

(** Once the configuration is fetched a response is an allow, a denial
    or a bad request. *)
Lemma Handle_kinds {RawExtension : Type}
    (n : NodeValidator RawExtension) (environ : gmap string string)
    (req : Request RawExtension) (allowedReasons : list string) (reasonRegex : string) :
  getAllowedReasonsAndPattern n cmNamespace = Ok (allowedReasons, reasonRegex) ->
  exists message,
    fst (Handle n environ req) = admission.Allowed message
    \/ fst (Handle n environ req) = admission.Denied message
    \/ fst (Handle n environ req) = admission.Errored StatusBadRequest message.
Proof.
  intros fetched. unfold Handle. rewrite fetched.
  assert (Hverdict : forall node op user forbidden reason req' ex allowed pattern,
             exists message,
               fst (userOnlyOperation node op user forbidden reason req' ex allowed pattern)
               = admission.Allowed message
               \/ fst (userOnlyOperation node op user forbidden reason req' ex allowed pattern)
                  = admission.Denied message
               \/ fst (userOnlyOperation node op user forbidden reason req' ex allowed pattern)
                  = admission.Errored StatusBadRequest message).
  { intros.
    destruct (userOnlyOperation_verdict node op user forbidden reason req' ex allowed pattern)
      as (m & [E | E]); exists m; auto. }
  destruct (String.eqb (Operation req) admissionv1_Delete).
  { destruct (Decoder n (OldObject req) emptyNode) as [node | err].
    - destruct (lookup2 (Annotations node) reasonAnnotation). apply Hverdict.
    - eexists. right. right. reflexivity. }
  destruct (String.eqb (Operation req) admissionv1_Create).
  { destruct (Decoder n (Object req) emptyNode) as [node | err].
    - destruct (lookup2 (Annotations node) reasonAnnotation) as [reason []]; simpl; eexists;
        [right; left | left]; reflexivity.
    - eexists. right. right. reflexivity. }
  destruct (Decoder n (OldObject req) emptyNode) as [node1 | err].
  2: { eexists. right. right. reflexivity. }
  destruct (Decoder n (Object req) node1) as [node | err].
  2: { eexists. right. right. reflexivity. }
  destruct (lookup2 (Annotations node) reasonAnnotation).
  simpl. destruct (Unschedulable node); [apply Hverdict |].
  eexists. left. reflexivity.
Qed.

(** X3.  The status code of a response tells its kind: 200 exactly for an
    allow; otherwise 403, 400 or 500, and 500 exactly when the
    configuration could not be fetched. *)
Theorem Handle_status_codes {RawExtension : Type}
    (n : NodeValidator RawExtension) (environ : gmap string string)
    (req : Request RawExtension) :
  (Allowed (fst (Handle n environ req)) = true
   <-> Code (fst (Handle n environ req)) = StatusOK)
  /\ (Code (fst (Handle n environ req)) = StatusOK
      \/ Code (fst (Handle n environ req)) = StatusForbidden
      \/ Code (fst (Handle n environ req)) = StatusBadRequest
      \/ Code (fst (Handle n environ req)) = StatusInternalServerError)
  /\ (Code (fst (Handle n environ req)) = StatusInternalServerError
      <-> exists err, getAllowedReasonsAndPattern n cmNamespace = Err err).
Proof.
  destruct (getAllowedReasonsAndPattern n cmNamespace)
    as [[allowedReasons reasonRegex] | err] eqn:fetched.
  - destruct (Handle_kinds n environ req _ _ fetched) as (m & [-> | [-> | ->]]); simpl;
      (split; [split; [discriminate || reflexivity | discriminate || reflexivity] |]);
      (split; [auto |]);
      (split; [discriminate | intros (e & H); discriminate]).
  - rewrite (Handle_fetch_error n environ req err fetched). simpl.
    split; [split; discriminate |]. split; [auto |]. split; eauto.
Qed.

(** ** The reason policy for regular users *)

(** X4.  A regular user's delete is allowed exactly when the node carries
    the reason annotation and its text is not empty, or is in the allowed
    list, or is matched by the pattern. *)
Theorem Delete_by_regular_user {RawExtension : Type}
    (n : NodeValidator RawExtension) (environ : gmap string string)
    (req : Request RawExtension) (allowedReasons : list string) (reasonRegex : string)
    (node : Node) :
  getAllowedReasonsAndPattern n cmNamespace = Ok (allowedReasons, reasonRegex) ->
  regularUser (Username req) (forbiddenUsersOf environ) = true ->
  Operation req = admissionv1_Delete ->
  Decoder n (OldObject req) emptyNode = Ok node ->
  Allowed (fst (Handle n environ req))
  = match Annotations node !! reasonAnnotation with
    | None => false
    | Some reason =>
        negb (String.eqb reason EmptyString)
        || reasonIsAllowed allowedReasons reason
        || reasonMatchesPattern reasonRegex reason
    end.
Proof.
  intros fetched Hregular Hop Hdec.
  rewrite (Handle_Delete n environ req _ _ fetched node Hop Hdec).
  unfold lookup2. destruct (Annotations node !! reasonAnnotation) as [reason |]; cbn [fst snd].
  - rewrite userOnlyOperation_regular_reason by (exact Hregular || reflexivity).
    unfold isReasonFreetext. cbn [String.eqb Ascii.eqb Bool.eqb andb].
    destruct (String.eqb reason EmptyString), (reasonIsAllowed allowedReasons reason),
      (reasonMatchesPattern reasonRegex reason); reflexivity.
  - apply regularUser_cases in Hregular as (H1 & H2 & H3).
    unfold userOnlyOperation. now rewrite H1, H2, H3.
Qed.

Lemma Delete_by_regular_user_witness :
  Allowed (fst (Handle (validator (patternConfigMap "^OPS-[0-9]+$")) testEnviron
                       (deleteReq regularUserExample (testNode (Some "for fun") false))))
  = true.
Proof.
  assert (fetched : getAllowedReasonsAndPattern (validator (patternConfigMap "^OPS-[0-9]+$"))
                                                cmNamespace
                    = Ok (["Testing"], "^OPS-[0-9]+$"))
    by (vm_compute; reflexivity).
  assert (Hregular : regularUser regularUserExample (forbiddenUsersOf testEnviron) = true)
    by (vm_compute; reflexivity).
  rewrite (Delete_by_regular_user (validator (patternConfigMap "^OPS-[0-9]+$")) testEnviron
             (deleteReq regularUserExample (testNode (Some "for fun") false))
             _ _ (testNode (Some "for fun") false) fetched Hregular eq_refl eq_refl).
  vm_compute. reflexivity.
Defined.

(** X5.  A regular user's update to an unschedulable node is allowed
    exactly when the node carries the reason annotation and its text is in
    the allowed list or is matched by the pattern; the free text of a
    delete does not apply. *)
Theorem Cordon_by_regular_user {RawExtension : Type}
    (n : NodeValidator RawExtension) (environ : gmap string string)
    (req : Request RawExtension) (allowedReasons : list string) (reasonRegex : string)
    (node1 node : Node) :
  getAllowedReasonsAndPattern n cmNamespace = Ok (allowedReasons, reasonRegex) ->
  regularUser (Username req) (forbiddenUsersOf environ) = true ->
  Operation req <> admissionv1_Delete ->
  Operation req <> admissionv1_Create ->
  Decoder n (OldObject req) emptyNode = Ok node1 ->
  Decoder n (Object req) node1 = Ok node ->
  Unschedulable node = true ->
  Allowed (fst (Handle n environ req))
  = match Annotations node !! reasonAnnotation with
    | None => false
    | Some reason =>
        reasonIsAllowed allowedReasons reason || reasonMatchesPattern reasonRegex reason
    end.
Proof.
  intros fetched Hregular Hd Hc Hdec1 Hdec2 Hafter.
  rewrite (Handle_update n environ req _ _ fetched node1 node Hd Hc Hdec1 Hdec2), Hafter.
  unfold lookup2. destruct (Annotations node !! reasonAnnotation) as [reason |]; cbn [fst snd].
  - rewrite userOnlyOperation_regular_reason by (exact Hregular || reflexivity).
    unfold isReasonFreetext. cbn [String.eqb Ascii.eqb Bool.eqb andb]. rewrite orb_false_r.
    destruct (reasonIsAllowed allowedReasons reason || reasonMatchesPattern reasonRegex reason);
      reflexivity.
  - apply regularUser_cases in Hregular as (H1 & H2 & H3).
    unfold userOnlyOperation. now rewrite H1, H2, H3.
Qed.

Lemma Cordon_by_regular_user_witness :
  Allowed (fst (Handle (validator (patternConfigMap "^OPS-[0-9]+$")) testEnviron
                       (updateReq regularUserExample (testNode (Some "for fun") false)
                                  (testNode (Some "for fun") true))))
  = false.
Proof.
  assert (fetched : getAllowedReasonsAndPattern (validator (patternConfigMap "^OPS-[0-9]+$"))
                                                cmNamespace
                    = Ok (["Testing"], "^OPS-[0-9]+$"))
    by (vm_compute; reflexivity).
  assert (Hregular : regularUser regularUserExample (forbiddenUsersOf testEnviron) = true)
    by (vm_compute; reflexivity).
  rewrite (Cordon_by_regular_user (validator (patternConfigMap "^OPS-[0-9]+$")) testEnviron
             (updateReq regularUserExample (testNode (Some "for fun") false)
                        (testNode (Some "for fun") true))
             ["Testing"] "^OPS-[0-9]+$" (testNode (Some "for fun") false)
             (testNode (Some "for fun") true) fetched Hregular).
  - vm_compute. reflexivity.
  - discriminate.
  - discriminate.
  - reflexivity.
  - reflexivity.
  - reflexivity.
Defined.

(** Folding is what [strings.EqualFold] compares by. *)
Lemma EqualFold_foldLower (s t : string) :
  GoStrings.EqualFold s t = true <-> foldLower s = foldLower t.
Proof.
  revert t. induction s as [|a s IH]; intros [|b t]; simpl;
    try (split; [reflexivity || discriminate | reflexivity || discriminate]).
  rewrite andb_true_iff, Ascii.eqb_eq, IH. split.
  - intros [-> ->]. reflexivity.
  - intros H. injection H as H1 H2. auto.
Qed.

(** X6.  For ASCII texts, a reason is in the allowed list exactly when,
    letter case apart, it equals one of the entries; so every entry is
    accepted in any letter case. *)
Theorem reasonIsAllowed_iff (allowedReasons : list string) (reason : string) :
  asciiText reason = true ->
  forallb asciiText allowedReasons = true ->
  reasonIsAllowed allowedReasons reason = true
  <-> In (foldLower reason) (map foldLower allowedReasons).
Proof.
  intros _ _. induction allowedReasons as [|a l IH]; simpl.
  - split; [discriminate | tauto].
  - destruct (GoStrings.EqualFold a reason) eqn:E.
    + apply EqualFold_foldLower in E. split; auto.
    + rewrite IH. split; [auto |]. intros [H | H]; [| exact H].
      apply EqualFold_foldLower in H. congruence.
Qed.

Lemma reasonIsAllowed_iff_witness :
  reasonIsAllowed ["Testing"; "Unauthorized access"] "UNAUTHORIZED Access" = true
  <-> In (foldLower "UNAUTHORIZED Access")
         (map foldLower ["Testing"; "Unauthorized access"]).
Proof.
  exact (reasonIsAllowed_iff ["Testing"; "Unauthorized access"] "UNAUTHORIZED Access"
           eq_refl eq_refl).
Defined.

(** X7.  When the allowed reasons of the ConfigMap are missing or empty,
    the allowed list is the one empty string: a regular user's update to an
    unschedulable node whose reason annotation is present and empty is
    allowed, whatever the pattern. *)
Theorem empty_reason_accepted_without_allowed_reasons {RawExtension : Type}
    (n : NodeValidator RawExtension) (environ : gmap string string)
    (req : Request RawExtension) (cm : ConfigMap) (node1 node : Node) :
  Client n (mkObjectKey cmNamespace cmName) = Ok cm ->
  fst (lookup2 (Data cm) allowedReasonsKey) = EmptyString ->
  regularUser (Username req) (forbiddenUsersOf environ) = true ->
  Operation req <> admissionv1_Delete ->
  Operation req <> admissionv1_Create ->
  Decoder n (OldObject req) emptyNode = Ok node1 ->
  Decoder n (Object req) node1 = Ok node ->
  Unschedulable node = true ->
  Annotations node !! reasonAnnotation = Some EmptyString ->
  Handle n environ req
  = (admission.Allowed "cordon operation has been approved",
     createNodeEvent emptyNode EmptyString (Username req) Cordon).
Proof.
  intros Hcm Hallowed Hregular Hd Hc Hdec1 Hdec2 Hafter Hreason.
  pose proof (getAllowedReasonsAndPattern_ok n cmNamespace cm Hcm) as fetched.
  rewrite Hallowed in fetched.
  rewrite (Handle_update n environ req _ _ fetched node1 node Hd Hc Hdec1 Hdec2), Hafter.
  unfold lookup2 at 1 2. rewrite Hreason. cbn [fst snd].
  rewrite userOnlyOperation_regular_reason by (exact Hregular || reflexivity).
  reflexivity.
Qed.

Lemma empty_reason_accepted_without_allowed_reasons_witness :
  Allowed (fst (Handle (validator (mkConfigMap {[ reasonRegexPatternKey := "^OPS-[0-9]+$" ]}))
                       testEnviron
                       (updateReq regularUserExample (testNode (Some EmptyString) false)
                                  (testNode (Some EmptyString) true))))
  = true.
Proof.
  rewrite (empty_reason_accepted_without_allowed_reasons
             (validator (mkConfigMap {[ reasonRegexPatternKey := "^OPS-[0-9]+$" ]}))
             testEnviron
             (updateReq regularUserExample (testNode (Some EmptyString) false)
                        (testNode (Some EmptyString) true))
             (mkConfigMap {[ reasonRegexPatternKey := "^OPS-[0-9]+$" ]})
             (testNode (Some EmptyString) false) (testNode (Some EmptyString) true)).
  - reflexivity.
  - reflexivity.
  - vm_compute. reflexivity.
  - vm_compute. reflexivity.
  - discriminate.
  - discriminate.
  - reflexivity.
  - reflexivity.
  - reflexivity.
  - vm_compute. reflexivity.
Defined.

(** ** The lists read from the environment and the ConfigMap *)

(** X8.  A user is forbidden exactly when it is the built-in superuser or
    equals, character for character, one of the comma-separated entries of
    the environment variable. *)
Theorem forbidden_iff_listed (environ : gmap string string) (user : string) :
  isForbiddenUser user (forbiddenUsersOf environ) = true
  <-> user = systemAdminUser
      \/ In user (GoStrings.Split (Getenv environ ForbiddenUsersEnv) ",").
Proof.
  unfold forbiddenUsersOf. rewrite isForbiddenUser_app, orb_true_iff, !isForbiddenUser_In.
  simpl. split.
  - intros [H | [H | []]]; auto.
  - intros [H | H]; auto.
Qed.

Lemma split_from_not_nil (sep s : string) (skip : nat) :
  GoStrings.split_from sep s skip <> [].
Proof.
  revert skip. induction s as [|c s IH]; intros skip; cbn [GoStrings.split_from];
    [discriminate |].
  destruct skip as [|k]; [| apply IH].
  destruct (String.prefix sep (String c s)); [discriminate |].
  destruct (GoStrings.split_from sep s 0); discriminate.
Qed.

Lemma Join_cons_char (c : ascii) (piece : string) (pieces : list string) (sep : string) :
  GoStrings.Join (String c piece :: pieces) sep
  = String c (GoStrings.Join (piece :: pieces) sep).
Proof. destruct pieces; reflexivity. Qed.

Lemma prefix_comma (c : ascii) (s : string) :
  String.prefix "," (String c s) = if Ascii.eqb c "," then true else false.
Proof.
  change (String.prefix "," (String c s))
    with (if Ascii.ascii_dec "," c then String.prefix EmptyString s else false).
  destruct (Ascii.ascii_dec "," c) as [<- | NE]; [now destruct s |].
  destruct (Ascii.eqb_spec c ","); [congruence | reflexivity].
Qed.

Lemma Join_split_comma (s : string) : GoStrings.Join (GoStrings.Split s ",") "," = s.
Proof.
  unfold GoStrings.Split. induction s as [|c s IH]; [reflexivity |].
  cbn [GoStrings.split_from]. rewrite prefix_comma.
  destruct (GoStrings.split_from "," s 0) as [|p ps] eqn:Es;
    [now apply split_from_not_nil in Es |].
  destruct (Ascii.eqb_spec c ",") as [-> | NE].
  - cbn [String.length Nat.sub]. rewrite Es. simpl GoStrings.Join. simpl in IH.
    now rewrite IH.
  - rewrite Join_cons_char. now rewrite IH.
Qed.

(** X9.  The allowed reasons are the pieces of the ConfigMap's value
    between its commas, nothing trimmed and nothing dropped: the list is
    never empty, joined with commas it gives the value back, and the
    pattern is the value of its key as it stands; a missing key counts as
    the empty string and is no error. *)
Theorem allowed_reasons_are_the_comma_pieces {RawExtension : Type}
    (n : NodeValidator RawExtension) (namespace : string) (cm : ConfigMap) :
  Client n (mkObjectKey namespace cmName) = Ok cm ->
  exists allowedReasons reasonRegex,
    getAllowedReasonsAndPattern n namespace = Ok (allowedReasons, reasonRegex)
    /\ allowedReasons <> []
    /\ GoStrings.Join allowedReasons "," = default EmptyString (Data cm !! allowedReasonsKey)
    /\ reasonRegex = default EmptyString (Data cm !! reasonRegexPatternKey)
    /\ (forall entry, In entry allowedReasons -> ~ occursIn "," entry).
Proof.
  intros Hcm. rewrite (getAllowedReasonsAndPattern_ok n namespace cm Hcm).
  eexists _, _. split; [reflexivity |].
  assert (Hval : forall key, fst (lookup2 (Data cm) key) = default EmptyString (Data cm !! key)).
  { intros key. unfold lookup2. destruct (Data cm !! key); reflexivity. }
  rewrite !Hval. split; [apply split_from_not_nil |]. split; [apply Join_split_comma |].
  split; [reflexivity |].
  generalize (default EmptyString (Data cm !! allowedReasonsKey)). clear.
  intros s. unfold GoStrings.Split.
  induction s as [|c s IH]; intros entry Hin (before & after & E).
  - destruct Hin as [<- | []]. destruct before; discriminate.
  - cbn [GoStrings.split_from] in Hin. rewrite prefix_comma in Hin.
    destruct (GoStrings.split_from "," s 0) as [|p ps] eqn:Es;
      [now apply split_from_not_nil in Es |].
    destruct (Ascii.eqb_spec c ",") as [-> | NE].
    + cbn [String.length Nat.sub] in Hin. rewrite Es in Hin.
      destruct Hin as [<- | Hin].
      * destruct before; discriminate.
      * apply (IH entry Hin). now exists before, after.
    + destruct Hin as [<- | Hin].
      * destruct before as [|b before].
        -- simpl in E. injection E as E1 _. congruence.
        -- simpl in E. injection E as _ E.
           apply (IH p (or_introl eq_refl)). now exists before, after.
      * apply (IH entry (or_intror Hin)). now exists before, after.
Qed.

Lemma allowed_reasons_are_the_comma_pieces_witness :
  exists allowedReasons reasonRegex,
    getAllowedReasonsAndPattern (validator mockConfigMap) cmNamespace
    = Ok (allowedReasons, reasonRegex)
    /\ allowedReasons <> []
    /\ GoStrings.Join allowedReasons ","
       = default EmptyString (Data mockConfigMap !! allowedReasonsKey)
    /\ reasonRegex = default EmptyString (Data mockConfigMap !! reasonRegexPatternKey)
    /\ (forall entry, In entry allowedReasons -> ~ occursIn "," entry).
Proof.
  exact (allowed_reasons_are_the_comma_pieces (validator mockConfigMap) cmNamespace
           mockConfigMap eq_refl).
Defined.

(** ** The events *)

(** X10.  An event is recorded only with an allow and is then the only
    one.  It regards the zero node ([oldNode], which is never decoded
    into), not the node of the request; its reason names a delete, a
    cordon, or the admission verb [CREATE], never an uncordon; its message
    starts with the user. *)
Theorem Handle_events_shape {RawExtension : Type}
    (n : NodeValidator RawExtension) (environ : gmap string string)
    (req : Request RawExtension) (e : Event) :
  In e (snd (Handle n environ req)) ->
  snd (Handle n environ req) = [e]
  /\ Allowed (fst (Handle n environ req)) = true
  /\ eventObject e = emptyNode
  /\ eventType e = EventTypeNormal
  /\ (eventReasonText e = "NodeOperation: delete"
      \/ eventReasonText e = "NodeOperation: cordon"
      \/ eventReasonText e = "NodeOperation: CREATE")
  /\ exists text, eventMessage e = (Username req ++ ": " ++ text)%string.
Proof.
  destruct (Handle_paths n environ req) as
    [(code & err & -> & _) | [(b & ->) | [-> | (op & r & b & a & p & Hop & ->)]]].
  - intros [].
  - destruct b; simpl; [intros [] |]. intros [<- | []]. simpl.
    repeat split; eauto.
  - intros [].
  - pose proof (userOnlyOperation_events emptyNode op (Username req)
                  (forbiddenUsersOf environ) r true b a p) as H.
    destruct (Allowed (fst (userOnlyOperation _ _ _ _ _ _ _ _ _))).
    + destruct H as (message & ->). intros [<- | []]. simpl.
      repeat split; eauto. destruct Hop as [-> | ->]; auto.
    + rewrite H. intros [].
Qed.

Lemma Handle_events_shape_witness :
  let e := mkEvent emptyNode EventTypeNormal "NodeOperation: cordon" "user: Testing" in
  let response :=
    Handle (validator mockConfigMap) testEnviron
           (updateReq regularUserExample (testNode (Some "Testing") false)
                      (testNode (Some "Testing") true)) in
  snd response = [e]
  /\ Allowed (fst response) = true
  /\ eventObject e = emptyNode
  /\ eventType e = EventTypeNormal
  /\ (eventReasonText e = "NodeOperation: delete"
      \/ eventReasonText e = "NodeOperation: cordon"
      \/ eventReasonText e = "NodeOperation: CREATE")
  /\ exists text, eventMessage e = (regularUserExample ++ ": " ++ text)%string.
Proof.
  assert (Hin : In (mkEvent emptyNode EventTypeNormal "NodeOperation: cordon" "user: Testing")
                   (snd (Handle (validator mockConfigMap) testEnviron
                                (updateReq regularUserExample
                                           (testNode (Some "Testing") false)
                                           (testNode (Some "Testing") true)))))
    by (vm_compute; left; reflexivity).
  exact (Handle_events_shape _ _ _ _ Hin).
Defined.

(** ** Anchored patterns *)

Section AnchoredPatterns.

Import GoRegexp.

Lemma concat_rev_cons (r : Regexp) (rs : list Regexp) :
  rs <> [] -> concat (rev (r :: rs)) = OpConcat r (concat (rev rs)).
Proof.
  intros Hne. simpl rev. destruct (rev rs) as [|x xs] eqn:E.
  - apply (f_equal (@List.length _)) in E. rewrite length_rev in E.
    destruct rs; [congruence | discriminate].
  - simpl. now rewrite fold_left_app.
Qed.

Lemma pushAll_mode (cs : list ascii) (st : PState) :
  mode st = MNormal -> mode (pushAll cs st) = MNormal.
Proof.
  revert st. induction cs as [|c cs IH]; intros st Hm; [exact Hm |].
  apply IH. reflexivity.
Qed.

Lemma run_plain_app (pattern rest : string) (st : PState) :
  plain pattern = true -> mode st = MNormal ->
  run st (pattern ++ rest) = run (pushAll (list_ascii_of_string pattern) st) rest.
Proof.
  revert st. induction pattern as [|c pattern IH]; intros st Hp Hm; [reflexivity |].
  unfold plain in Hp. simpl in Hp. apply andb_true_iff in Hp as [Hc Hp].
  simpl. unfold step. rewrite Hm, (stepNormal_plain _ _ _ Hc).
  apply IH; [exact Hp | reflexivity].
Qed.

Lemma pushAll_pieces (cs : list ascii) (st : PState) :
  lastRepeat st = false -> mode st = MNormal ->
  pushAll cs st
  = mkPState (stack st)
             (mkFrame (capture (cur st)) (alts (cur st))
                      (rev (map OpLiteral cs) ++ pieces (cur st)))
             false MNormal.
Proof.
  intros Hr Hm. destruct cs as [|c cs].
  - destruct st as [stk [cap al ps] lr md]. simpl in *. now subst.
  - apply pushAll_state. discriminate.
Qed.

Lemma Compile_anchored (pattern : string) :
  plain pattern = true ->
  Compile (anchored pattern)
  = inr (OpConcat OpBeginText (literalsToEnd (list_ascii_of_string pattern))).
Proof.
  intros Hp. unfold Compile, anchored.
  change (run initial ("^" ++ pattern ++ "$"))
    with (run (push OpBeginText initial) (pattern ++ "$")).
  rewrite run_plain_app by (exact Hp || reflexivity).
  rewrite pushAll_pieces by reflexivity.
  cbn -[rev map]. unfold alternate. cbn -[rev map concat].
  unfold literalsToEnd.
  rewrite <- (concat_rev_cons OpBeginText
                (map OpLiteral (list_ascii_of_string pattern) ++ [OpEndText]))
    by (destruct (map OpLiteral (list_ascii_of_string pattern)); discriminate).
  cbn [rev]. rewrite rev_app_distr. reflexivity.
Qed.

Lemma literalsToEnd_cons (c : ascii) (cs : list ascii) :
  literalsToEnd (c :: cs) = OpConcat (OpLiteral c) (literalsToEnd cs).
Proof.
  unfold literalsToEnd. cbn [map app]. apply concat_rev_cons.
  destruct (map OpLiteral cs); discriminate.
Qed.

Lemma matchAt_literalsToEnd (cs text : list ascii) (i j : nat) :
  matchAt (literalsToEnd cs) text i j = true
  <-> j = (i + List.length cs)%nat
      /\ firstn (List.length cs) (skipn i text) = cs
      /\ j = List.length text.
Proof.
  revert i. induction cs as [|c cs IH]; intros i.
  - change (literalsToEnd []) with OpEndText. simpl.
    rewrite andb_true_iff, !Nat.eqb_eq. split; [intros [-> ->] | intros (-> & _ & E)];
      repeat split; lia.
  - rewrite literalsToEnd_cons. simpl matchAt. rewrite existsb_exists.
    change (List.length (c :: cs)) with (S (List.length cs)).
    rewrite firstn_skipn_cons. split.
    + intros (k & _ & H). apply andb_true_iff in H as [H1 H2].
      apply charAt_spec in H1 as (-> & x & E & Hx). apply Ascii.eqb_eq in Hx as ->.
      apply IH in H2 as (-> & H2 & H3). repeat split; [lia | exact E | exact H2 | exact H3].
    + intros (-> & (E & H) & H3). exists (S i). split; [apply in_seq; lia |].
      apply andb_true_iff. split.
      * apply charAt_spec. split; [reflexivity |]. exists c.
        split; [exact E | apply Ascii.eqb_refl].
      * apply IH. repeat split; [lia | exact H | exact H3].
Qed.

(** X11.  Anchoring is the pattern's own: a pattern of plain characters
    put between [^] and [$] accepts one reason text only, the pattern
    itself. *)
Theorem anchored_pattern_matches_exactly (pattern reason : string) :
  plain pattern = true ->
  reasonMatchesPattern (anchored pattern) reason = true <-> reason = pattern.
Proof.
  intros Hp. unfold reasonMatchesPattern.
  rewrite (MatchString_compiled _ _ _ (Compile_anchored _ Hp)).
  rewrite Regexp_MatchString_spec. split.
  - intros (i & j & _ & H). simpl matchAt in H. apply existsb_exists in H as (k & _ & H).
    apply andb_true_iff in H as [H1 H2]. apply andb_true_iff in H1 as [H0 H1].
    apply Nat.eqb_eq in H0, H1. subst k i.
    apply matchAt_literalsToEnd in H2 as (Hj & Hfirst & Hlen).
    simpl in Hj. rewrite Hj in Hlen.
    change (skipn 0 (list_ascii_of_string reason)) with (list_ascii_of_string reason)
      in Hfirst.
    rewrite Hlen, firstn_all in Hfirst.
    rewrite <- (string_of_list_ascii_of_string reason), Hfirst.
    apply string_of_list_ascii_of_string.
  - intros ->. set (cs := list_ascii_of_string pattern).
    exists 0%nat, (List.length cs). split; [lia |].
    cbn [matchAt]. apply existsb_exists. exists 0%nat. split; [apply in_seq; lia |].
    apply andb_true_iff. split; [reflexivity |].
    apply matchAt_literalsToEnd. split; [reflexivity |]. split; [apply firstn_all | reflexivity].
Qed.

Lemma anchored_pattern_matches_exactly_witness :
  reasonMatchesPattern (anchored "Testing") "Load Testing today" = true
  <-> "Load Testing today" = "Testing".
Proof.
  exact (anchored_pattern_matches_exactly "Testing" "Load Testing today" eq_refl).
Defined.

End AnchoredPatterns.

(** ** The earlier revision *)

(** X12.  In [webhook.go] as well [oldNode] is never decoded into: every
    response is a bad request, the check of a create, the no-op of the
    update switch, or [userOnlyOperation] for a delete or a cordon, with a
    reason required; no request reaches the uncordon case. *)
Theorem V1_Handle_paths {RawExtension : Type}
    (n : NodeValidator RawExtension) (environ : gmap string string)
    (req : Request RawExtension) :
  WebhookV1.Handle n environ req
  = admission.Errored StatusBadRequest ("failed to decode node " ++ GoFmt.q (Name req))
  \/ (exists doesReasonExist,
        WebhookV1.Handle n environ req
        = validateNoReason doesReasonExist Create (Username req))
  \/ WebhookV1.Handle n environ req = admission.Allowed "Node was updated"
  \/ (exists operation reason doesReasonExist,
        (operation = Delete \/ operation = Cordon)
        /\ WebhookV1.Handle n environ req
           = WebhookV1.userOnlyOperation operation (Username req) (forbiddenUsersOf environ)
               reason true doesReasonExist).
Proof.
  unfold WebhookV1.Handle.
  destruct (String.eqb (Operation req) admissionv1_Delete).
  { destruct (Decoder n (OldObject req) emptyNode) as [node | err]; [| now left].
    destruct (lookup2 (Annotations node) reasonAnnotation) as [reason doesReasonExist].
    right. right. right. exists Delete, reason, doesReasonExist. split; [now left | reflexivity]. }
  destruct (String.eqb (Operation req) admissionv1_Create).
  { destruct (Decoder n (Object req) emptyNode) as [node | err]; [| now left].
    destruct (lookup2 (Annotations node) reasonAnnotation) as [reason doesReasonExist].
    right. left. now exists doesReasonExist. }
  destruct (Decoder n (OldObject req) emptyNode) as [node1 | err]; [| now left].
  destruct (Decoder n (Object req) node1) as [node | err]; [| now left].
  destruct (lookup2 (Annotations node) reasonAnnotation) as [reason doesReasonExist].
  simpl. destruct (Unschedulable node).
  - right. right. right. exists Cordon, reason, doesReasonExist. split; [now right | reflexivity].
  - right. right. now left.
Qed.

(** A delete, and an update to an unschedulable node, go to
    [userOnlyOperation] with a reason required. *)
Lemma V1_Handle_routed {RawExtension : Type}
    (n : NodeValidator RawExtension) (environ : gmap string string)
    (req : Request RawExtension) (node : Node) :
  requestNode n req = Ok node ->
  Operation req <> admissionv1_Create ->
  Operation req = admissionv1_Delete \/ Unschedulable node = true ->
  WebhookV1.Handle n environ req
  = WebhookV1.userOnlyOperation
      (if String.eqb (Operation req) admissionv1_Delete then Delete else Cordon)
      (Username req) (forbiddenUsersOf environ)
      (fst (lookup2 (Annotations node) reasonAnnotation)) true
      (snd (lookup2 (Annotations node) reasonAnnotation)).
Proof.
  intros Hnode Hc Hcase. revert Hnode.
  unfold requestNode, WebhookV1.Handle. fold (forbiddenUsersOf environ).
  destruct (String.eqb_spec (Operation req) admissionv1_Delete) as [Hd | Hd].
  - intros ->. now destruct (lookup2 (Annotations node) reasonAnnotation).
  - destruct Hcase as [Hd' | Hafter]; [contradiction |].
    apply String.eqb_neq in Hc. rewrite Hc.
    destruct (Decoder n (OldObject req) emptyNode) as [node1 | err]; [| discriminate].
    intros ->. destruct (lookup2 (Annotations node) reasonAnnotation) as [reason ex].
    simpl. now rewrite Hafter.
Qed.

(** X13.  In [webhook.go] the text of the reason is never looked at: for a
    user that is neither forbidden nor a service account, a delete, and an
    update to an unschedulable node, are allowed exactly when the node
    carries the reason annotation. *)
Theorem V1_reason_presence_decides {RawExtension : Type}
    (n : NodeValidator RawExtension) (environ : gmap string string)
    (req : Request RawExtension) (node : Node) :
  isForbiddenUser (Username req) (forbiddenUsersOf environ) = false ->
  isServiceAccount (Username req) = false ->
  requestNode n req = Ok node ->
  Operation req <> admissionv1_Create ->
  Operation req = admissionv1_Delete \/ Unschedulable node = true ->
  Allowed (WebhookV1.Handle n environ req)
  = snd (lookup2 (Annotations node) reasonAnnotation).
Proof.
  intros Hforbidden Hsa Hnode Hc Hcase.
  rewrite (V1_Handle_routed n environ req node Hnode Hc Hcase).
  unfold WebhookV1.userOnlyOperation. rewrite Hforbidden, Hsa.
  now destruct (snd (lookup2 (Annotations node) reasonAnnotation)).
Qed.

Lemma V1_reason_presence_decides_witness :
  Allowed (WebhookV1.Handle (validator mockConfigMap) testEnviron
             (updateReq regularUserExample (testNode (Some "for fun") false)
                        (testNode (Some "for fun") true)))
  = snd (lookup2 (Annotations (testNode (Some "for fun") true)) reasonAnnotation).
Proof.
  apply (V1_reason_presence_decides (validator mockConfigMap) testEnviron
           (updateReq regularUserExample (testNode (Some "for fun") false)
                      (testNode (Some "for fun") true))
           (testNode (Some "for fun") true)).
  - vm_compute. reflexivity.
  - vm_compute. reflexivity.
  - reflexivity.
  - discriminate.
  - right. reflexivity.
Defined.

(** X14.  From [webhook.go] to the later revision the handler only got
    stricter, node users apart: whatever the later [Handle] allows to a
    user without the node prefix, the earlier one allows as well. *)
Theorem later_revision_only_tightens {RawExtension : Type}
    (n : NodeValidator RawExtension) (environ : gmap string string)
    (req : Request RawExtension) :
  isNode (Username req) = false ->
  Allowed (fst (Handle n environ req)) = true ->
  Allowed (WebhookV1.Handle n environ req) = true.
Proof.
  intros Hnode.
  assert (Huser : forall node op reason ex allowed pattern,
             Allowed (fst (userOnlyOperation node op (Username req) (forbiddenUsersOf environ)
                                             reason true ex allowed pattern)) = true ->
             Allowed (WebhookV1.userOnlyOperation op (Username req) (forbiddenUsersOf environ)
                                                  reason true ex) = true).
  { intros node op reason ex allowed pattern.
    unfold userOnlyOperation, WebhookV1.userOnlyOperation. rewrite Hnode.
    destruct (isForbiddenUser (Username req) (forbiddenUsersOf environ)); [discriminate |].
    destruct (isServiceAccount (Username req)); [reflexivity |].
    destruct ex; [reflexivity | discriminate]. }
  unfold Handle, WebhookV1.Handle. fold (forbiddenUsersOf environ).
  destruct (getAllowedReasonsAndPattern n cmNamespace) as [[allowedReasons reasonRegex] | err];
    [| discriminate].
  destruct (String.eqb (Operation req) admissionv1_Delete).
  { destruct (Decoder n (OldObject req) emptyNode) as [node | err]; [| discriminate].
    destruct (lookup2 (Annotations node) reasonAnnotation). apply Huser. }
  destruct (String.eqb (Operation req) admissionv1_Create).
  { destruct (Decoder n (Object req) emptyNode) as [node | err]; [| discriminate].
    destruct (lookup2 (Annotations node) reasonAnnotation) as [reason []];
      [discriminate | reflexivity]. }
  destruct (Decoder n (OldObject req) emptyNode) as [node1 | err]; [| discriminate].
  destruct (Decoder n (Object req) node1) as [node | err]; [| discriminate].
  destruct (lookup2 (Annotations node) reasonAnnotation).
  simpl. destruct (Unschedulable node); [apply Huser | reflexivity].
Qed.

Lemma later_revision_only_tightens_witness :
  Allowed (WebhookV1.Handle (validator mockConfigMap) testEnviron
             (deleteReq regularUserExample (testNode (Some "testing") false)))
  = true.
Proof.
  apply (later_revision_only_tightens (validator mockConfigMap) testEnviron
           (deleteReq regularUserExample (testNode (Some "testing") false))).
  - reflexivity.
  - vm_compute. reflexivity.
Defined.

(** X15.  Node users are what the later revision added an allowance for:
    a user with the node prefix that is neither forbidden nor a service
    account, updating a node to unschedulable without the reason
    annotation, is denied by [webhook.go] and allowed by the later
    [Handle]. *)
Theorem node_users_allowed_since_later_revision {RawExtension : Type}
    (n : NodeValidator RawExtension) (environ : gmap string string)
    (req : Request RawExtension) (allowedReasons : list string) (reasonRegex : string)
    (node : Node) :
  getAllowedReasonsAndPattern n cmNamespace = Ok (allowedReasons, reasonRegex) ->
  isNode (Username req) = true ->
  isForbiddenUser (Username req) (forbiddenUsersOf environ) = false ->
  isServiceAccount (Username req) = false ->
  Operation req <> admissionv1_Delete ->
  Operation req <> admissionv1_Create ->
  requestNode n req = Ok node ->
  Unschedulable node = true ->
  Annotations node !! reasonAnnotation = None ->
  Allowed (WebhookV1.Handle n environ req) = false
  /\ Handle n environ req
     = (admission.Allowed ("Node " ++ GoFmt.q (Username req)
                           ++ " is allowed to do everything"),
        createNodeEvent emptyNode EmptyString (Username req) Cordon).
Proof.
  intros fetched Hnode Hforbidden Hsa Hd Hc Hreq Hafter Hreason. split.
  - rewrite (V1_Handle_routed n environ req node Hreq Hc (or_intror Hafter)).
    unfold WebhookV1.userOnlyOperation, lookup2.
    now rewrite Hforbidden, Hsa, Hreason.
  - revert Hreq. unfold requestNode.
    pose proof Hd as Hd'. pose proof Hc as Hc'.
    apply String.eqb_neq in Hd', Hc'. rewrite Hd', Hc'.
    destruct (Decoder n (OldObject req) emptyNode) as [node1 | err] eqn:Hdec1;
      [| discriminate].
    intros Hdec2.
    rewrite (Handle_update n environ req _ _ fetched node1 node Hd Hc Hdec1 Hdec2), Hafter.
    unfold lookup2. rewrite Hreason. cbn [fst snd].
    now rewrite userOnlyOperation_node.
Qed.

Lemma node_users_allowed_since_later_revision_witness :
  Allowed (WebhookV1.Handle (validator mockConfigMap) testEnviron
             (updateReq kubelet (testNode None false) (testNode None true)))
  = false
  /\ Handle (validator mockConfigMap) testEnviron
            (updateReq kubelet (testNode None false) (testNode None true))
     = (admission.Allowed ("Node " ++ GoFmt.q kubelet ++ " is allowed to do everything"),
        createNodeEvent emptyNode EmptyString kubelet Cordon).
Proof.
  assert (fetched : getAllowedReasonsAndPattern (validator mockConfigMap) cmNamespace
                    = Ok (["Testing"; "Unauthorized access"; "Invalid configuration";
                           "Dependency error"], EmptyString))
    by (vm_compute; reflexivity).
  apply (node_users_allowed_since_later_revision (validator mockConfigMap) testEnviron
           (updateReq kubelet (testNode None false) (testNode None true))
           _ _ (testNode None true) fetched).
  - vm_compute. reflexivity.
  - vm_compute. reflexivity.
  - vm_compute. reflexivity.
  - discriminate.
  - discriminate.
  - reflexivity.
  - reflexivity.
  - reflexivity.
Defined.
